(** * flow-agent: the tool-invocation loop, its tools and its HTTP front end

    A shallow embedding of [agent/agent.py] and [agent/flask_app.py].

    The Python code is dynamically typed and talks to four libraries
    (requests, BeautifulSoup, pandas, the model endpoint's client).  Values
    that cross the endpoint boundary are modelled by [pyval]; effects are
    threaded through a state-and-exception monad [M] over an abstract
    [world]; what the libraries compute is taken as the operations of the
    class [Platform]. *)

From Stdlib Require Import ZArith Ascii String List Lia.
From stdpp Require Import base option list strings gmap pretty.

Set Warnings "-register-all".
Local Open Scope string_scope.
Local Open Scope Z_scope.

(** ** Python values and strings *)

Module Py.

(** The values that travel as tool arguments, tool results and JSON bodies.
    A float is carried by its [repr] ([1.5], [inf], [nan]); [PObj] is any
    other object, which is no mapping and which the [json] module cannot
    serialise (its field is the class name). *)
Inductive pyval : Type :=
| PNone
| PBool (b : bool)
| PInt (n : Z)
| PFloat (repr : string)
| PStr (s : string)
| PList (items : list pyval)
| PDict (entries : list (string * pyval))
| PObj (cls : string).

(** An exception instance: its class and [str(e)]. Every exception of the
    model is an instance of [Exception]. *)
Record exn : Type := Exn { exc_class : string; exc_msg : string }.

Definition str_exn (e : exn) : string := exc_msg e.

(** What a call that may raise gives back. *)
Inductive result (A : Type) : Type :=
| Ok (a : A)
| Raise (e : exn).
Arguments Ok {A} a.
Arguments Raise {A} e.

Definition str_nonempty (s : string) : bool :=
  match s with EmptyString => false | String _ _ => true end.

(** Python truthiness ([if v:]). *)
Definition truthy (v : pyval) : bool :=
  match v with
  | PNone => false
  | PBool b => b
  | PInt n => negb (n =? 0)
  | PFloat r => negb (bool_decide (r = "0.0" \/ r = "-0.0"))
  | PStr s => str_nonempty s
  | PList l => match l with [] => false | _ => true end
  | PDict d => match d with [] => false | _ => true end
  | PObj _ => true
  end.

(** [a or b] *)
Definition py_or (a b : pyval) : pyval := if truthy a then a else b.

(** [d.get(k)] on a dict given by its entries. *)
Fixpoint dict_get {A} (k : string) (d : list (string * A)) : option A :=
  match d with
  | [] => None
  | (k', v) :: d' => if String.eqb k k' then Some v else dict_get k d'
  end.

(** An attribute of a duck-typed object read with [getattr(o, name, dflt)]:
    it may be missing, hold [None], or hold a string. *)
Inductive pyattr : Type :=
| Missing
| IsNone
| IsStr (s : string).

(** [getattr(o, name, "")] *)
Definition getattr_str (a : pyattr) : pyattr :=
  match a with Missing => IsStr "" | _ => a end.

Definition attr_truthy (a : pyattr) : bool :=
  match a with IsStr s => str_nonempty s | _ => false end.

Definition attr_or (a b : pyattr) : pyattr := if attr_truthy a then a else b.

(** [getattr(o, "type", "") == lit] *)
Definition attr_is (a : pyattr) (lit : string) : bool :=
  match getattr_str a with IsStr s => String.eqb s lit | _ => false end.

(** [getattr(o, "type", "") in ("output_text", "text")] *)
Definition attr_in (a : pyattr) (lits : list string) : bool :=
  existsb (attr_is a) lits.

(** Characters are 8-bit code points. *)
Definition nl : string := String (ascii_of_nat 10) "".
Definition dquote : string := String (ascii_of_nat 34) "".
Definition backslash : string := String (ascii_of_nat 92) "".

(** [str.isspace] on one character. *)
Definition py_isspace (c : ascii) : bool :=
  let n := nat_of_ascii c in
  ((9 <=? n) && (n <=? 13) || (28 <=? n) && (n <=? 32) || (n =? 133) || (n =? 160))%nat.

Fixpoint lstrip (s : string) : string :=
  match s with
  | EmptyString => EmptyString
  | String c s' => if py_isspace c then lstrip s' else s
  end.

(** [rstrip] keeps a character when it is not a space or something that
    survives follows it. *)
Fixpoint rstrip (s : string) : string :=
  match s with
  | EmptyString => EmptyString
  | String c s' =>
      match rstrip s' with
      | EmptyString => if py_isspace c then EmptyString else String c EmptyString
      | r => String c r
      end
  end.

(** [s.strip()] *)
Definition strip (s : string) : string := rstrip (lstrip s).

(** [sep.join(parts)] *)
Fixpoint join (sep : string) (parts : list string) : string :=
  match parts with
  | [] => ""
  | [p] => p
  | p :: rest => p ++ sep ++ join sep rest
  end.

End Py.
Export Py.

(** ** The [json] module: [json.dumps] with its default settings *)

Module Json.

Definition hex_digit (n : nat) : ascii :=
  ascii_of_nat (if (n <? 10)%nat then 48 + n else 87 + n).

(** One character inside a JSON string ([ensure_ascii=True]). *)
Definition escape_char (c : ascii) : string :=
  let n := nat_of_ascii c in
  if (n =? 34)%nat then backslash ++ dquote
  else if (n =? 92)%nat then backslash ++ backslash
  else if (n =? 10)%nat then backslash ++ "n"
  else if (n =? 13)%nat then backslash ++ "r"
  else if (n =? 9)%nat then backslash ++ "t"
  else if (n =? 8)%nat then backslash ++ "b"
  else if (n =? 12)%nat then backslash ++ "f"
  else if ((n <? 32) || (126 <? n))%nat
       then backslash ++ "u00" ++ String (hex_digit (n / 16)) (String (hex_digit (n mod 16)) "")
  else String c "".

Fixpoint escape (s : string) : string :=
  match s with
  | EmptyString => ""
  | String c s' => escape_char c ++ escape s'
  end.

Definition quote (s : string) : string := dquote ++ escape s ++ dquote.

(** A float as [json.dumps] writes it: [float.__repr__], except for the
    three values that are not finite. *)
Definition float_json (repr : string) : string :=
  if String.eqb repr "inf" then "Infinity"
  else if String.eqb repr "-inf" then "-Infinity"
  else if String.eqb repr "nan" then "NaN"
  else repr.

Definition not_serializable {A} (cls : string) : result A :=
  Raise (Exn "TypeError" ("Object of type " ++ cls ++ " is not JSON serializable")).

Fixpoint json_dumps (v : pyval) : result string :=
  match v with
  | PNone => Ok "null"
  | PBool b => Ok (if b then "true" else "false")
  | PInt n => Ok (pretty n)
  | PFloat r => Ok (float_json r)
  | PStr s => Ok (quote s)
  | PList l =>
      let fix items (l : list pyval) : result (list string) :=
        match l with
        | [] => Ok []
        | x :: l' =>
            match json_dumps x with
            | Raise e => Raise e
            | Ok sx => match items l' with Raise e => Raise e | Ok ss => Ok (sx :: ss) end
            end
        end in
      match items l with
      | Raise e => Raise e
      | Ok ss => Ok ("[" ++ join ", " ss ++ "]")
      end
  | PDict d =>
      let fix entries (d : list (string * pyval)) : result (list string) :=
        match d with
        | [] => Ok []
        | (k, x) :: d' =>
            match json_dumps x with
            | Raise e => Raise e
            | Ok sx =>
                match entries d' with
                | Raise e => Raise e
                | Ok ss => Ok ((quote k ++ ": " ++ sx) :: ss)
                end
            end
        end in
      match entries d with
      | Raise e => Raise e
      | Ok ss => Ok ("{" ++ join ", " ss ++ "}")
      end
  | PObj cls => not_serializable cls
  end.

End Json.
Export Json.

(** ** BeautifulSoup: the parsed document and the queries the agent uses *)

Module BS4.

(** The classes of the strings of a parse tree: [NavigableString] itself
    ([Plain]) and its subclasses. *)
Inductive string_class : Type :=
| Plain
| CData
| Comment
| Declaration
| Doctype
| ProcessingInstruction
| Stylesheet
| Script
| TemplateString
| RubyTextString
| RubyParenthesisString.

#[global] Instance string_class_eq_dec : EqDecision string_class.
Proof. solve_decision. Defined.

(** A parse tree: strings with their class, and tags with their children
    in document order. The [BeautifulSoup] object is the tag [[document]]
    at the root. *)
Inductive node : Type :=
| NavigableString (cls : string_class) (s : string)
| Tag (name : string) (contents : list node).

(** [n.descendants]: everything below a node, in document order. *)
Fixpoint descendants (n : node) : list node :=
  match n with
  | NavigableString _ _ => []
  | Tag _ cs =>
      (fix below (l : list node) : list node :=
         match l with
         | [] => []
         | c :: l' => c :: descendants c ++ below l'
         end) cs
  end.

(** A tag whose name is one of [names]. The tags that [html.parser] builds
    have no namespace prefix, so the name alone decides. *)
Definition tag_named (names : list string) (n : node) : bool :=
  match n with
  | NavigableString _ _ => false
  | Tag nm _ => existsb (String.eqb nm) names
  end.

(** [n.find_all(names)] *)
Definition find_all (names : list string) (n : node) : list node :=
  List.filter (tag_named names) (descendants n).

(** [n.find(name)], also written [n.name]: the first match of [find_all],
    or [None]. A tag that is found is truthy whatever it contains. *)
Definition find (names : list string) (n : node) : option node :=
  head (find_all names n).

(** [n.string]: the only child when it is a string, of whatever class,
    looked for through only children that are tags. *)
Fixpoint tag_string (n : node) : option string :=
  match n with
  | NavigableString _ s => Some s
  | Tag _ [c] => tag_string c
  | Tag _ _ => None
  end.

(** The tags whose strings the HTML tree builders keep in a class of their
    own. *)
Definition string_containers (name : string) : option string_class :=
  if String.eqb name "rt" then Some RubyTextString
  else if String.eqb name "rp" then Some RubyParenthesisString
  else if String.eqb name "style" then Some Stylesheet
  else if String.eqb name "script" then Some Script
  else if String.eqb name "template" then Some TemplateString
  else None.

(** [tag.interesting_string_types]: the classes of string that count as the
    text of a tag. *)
Definition interesting_string_types (name : string) : list string_class :=
  match string_containers name with
  | Some cls => [cls]
  | None => [Plain; CData]
  end.

(** The strings [get_text] goes through: those below a tag whose class is
    exactly one of the interesting ones. Comments, declarations and, below
    an ordinary tag, the contents of scripts and style sheets are left
    out. *)
Definition all_strings (n : node) : list string :=
  match n with
  | NavigableString cls s => if bool_decide (cls ∈ [Plain; CData]) then [s] else []
  | Tag name _ =>
      flat_map (fun d =>
                  match d with
                  | NavigableString cls s =>
                      if bool_decide (cls ∈ interesting_string_types name) then [s] else []
                  | Tag _ _ => []
                  end)
               (descendants n)
  end.

(** [n.get_text(strip=True)]: the interesting strings below [n], each one
    stripped, those left empty dropped, concatenated. *)
Definition get_text_strip (n : node) : string :=
  join "" (List.filter str_nonempty (List.map strip (all_strings n))).

End BS4.
Export BS4.

(** ** pandas: a frame of cells *)

Module Pandas.

(** Column labels with their dtype names, row labels, and the rows; a cell
    is [None] where pandas holds NaN. *)
Record DataFrame : Type := {
  df_columns : list string;
  df_dtypes : list string;
  df_index : list string;
  df_rows : list (list (option pyval));
}.

Definition df_wf (df : DataFrame) : Prop :=
  NoDup (df_columns df)
  /\ length (df_dtypes df) = length (df_columns df)
  /\ length (df_index df) = length (df_rows df)
  /\ Forall (fun r => length r = length (df_columns df)) (df_rows df).

(** [df.shape] *)
Definition df_shape (df : DataFrame) : Z * Z :=
  (Z.of_nat (length (df_rows df)), Z.of_nat (length (df_columns df))).

(** The cells of column number [j], top to bottom. *)
Definition df_column (j : nat) (df : DataFrame) : list (option pyval) :=
  List.map (fun r => mjoin (r !! j)) (df_rows df).

Definition notnull (c : option pyval) : bool :=
  match c with Some _ => true | None => false end.

(** [df.count().to_dict()] *)
Definition df_count (df : DataFrame) : list (string * Z) :=
  imap (fun j c => (c, Z.of_nat (length (List.filter notnull (df_column j df)))))
       (df_columns df).

(** [df.dtypes.to_dict()] *)
Definition df_dtypes_dict (df : DataFrame) : list (string * string) :=
  zip (df_columns df) (df_dtypes df).

(** [df.fillna(v)] *)
Definition fillna (v : pyval) (df : DataFrame) : DataFrame :=
  {| df_columns := df_columns df;
     df_dtypes := df_dtypes df;
     df_index := df_index df;
     df_rows := List.map (List.map (fun c => Some (default v c))) (df_rows df) |}.

(** [df.head(n)] *)
Definition df_head (n : nat) (df : DataFrame) : DataFrame :=
  {| df_columns := df_columns df;
     df_dtypes := df_dtypes df;
     df_index := take n (df_index df);
     df_rows := take n (df_rows df) |}.

(** A cell as it leaves the frame: the float [nan] where nothing is held. *)
Definition cell_value (c : option pyval) : pyval := default (PFloat "nan") c.

(** [df.to_dict()]: column label to (row label to value). *)
Definition to_dict (df : DataFrame) : list (string * list (string * pyval)) :=
  imap (fun j c => (c, zip (df_index df) (List.map cell_value (df_column j df))))
       (df_columns df).

(** [df.to_dict(orient="records")]: one mapping per row. *)
Definition to_dict_records (df : DataFrame) : list (list (string * pyval)) :=
  List.map (fun r => zip (df_columns df) (List.map cell_value r)) (df_rows df).

End Pandas.
Export Pandas.

(** ** What the model endpoint sends and receives *)

(** A content block of a message item. *)
Record block : Type := {
  block_type : pyattr;
  block_text : pyattr;
  block_value : pyattr;
}.

(** An output item. The attributes read through [getattr] may be missing;
    [call_name], [call_id] and [call_arguments] are read directly from
    the items tagged [tool_call]. *)
Record item : Type := {
  item_type : pyattr;
  item_content : option (list block);
  item_text : pyattr;
  item_value : pyattr;
  call_id : string;
  call_name : string;
  call_arguments : pyval;
}.

(** A response: its id and its [output] attribute ([None] when the
    attribute is missing or holds [None]). *)
Record response : Type := {
  resp_id : string;
  resp_output : option (list item);
}.

(** One entry of the batch handed to [submit_tool_outputs]. *)
Record tool_output : Type := {
  tool_call_id : string;
  output : string;
}.

(** What [requests.get] returns. *)
Record http_response : Type := {
  status_code : Z;
  reason : string;
  resp_url : string;
  resp_text : string;
}.

(** ** The libraries and the outside world *)

Class Platform : Type := {
  world : Type;
  (** the module the interpreter holds the tools in: [__main__] when
      agent.py is the script, [agent] when flask_app imports it *)
  tools_module : string;
  (** [requests.get(url, timeout=..., headers=...)], whatever [url] is *)
  requests_get : pyval -> Z -> list (string * string) -> world -> result http_response * world;
  (** [BeautifulSoup(html, "html.parser")]: the tree, unless the parser
      rejects the markup *)
  BeautifulSoup : string -> result node;
  (** the text behind a path, as [pd.read_csv(path)] opens it *)
  read_text : string -> world -> result string;
  (** [pd.read_csv] on the text of a CSV document *)
  pd_read_csv : string -> result DataFrame;
  pd_read_csv_wf : forall s df, pd_read_csv s = Ok df -> df_wf df;
  (** [df.describe(include="all", datetime_is_numeric=True)] *)
  pd_describe : DataFrame -> result DataFrame;
  pd_describe_wf : forall df stats,
    df_wf df -> pd_describe df = Ok stats -> df_wf stats /\ df_columns stats = df_columns df;
  (** [client.responses.create(model=..., input=..., tools=...)] *)
  responses_create : string -> pyval -> list pyval -> world -> result response * world;
  (** [client.responses.submit_tool_outputs(response_id=..., tool_outputs=...)] *)
  responses_submit_tool_outputs : string -> list tool_output -> world -> result response * world;
}.

(** ** The effect monad *)

Inductive outcome (A : Type) : Type :=
| Done (a : A)
| Raised (e : exn)
| OutOfFuel.
Arguments Done {A} a.
Arguments Raised {A} e.
Arguments OutOfFuel {A}.

(** A round-trip to the endpoint, as issued: the first call with its prompt,
    or a submission answering a response with a batch of outputs. *)
Inductive round_trip : Type :=
| TripCreate (prompt : string)
| TripSubmit (answered : response) (batch : list tool_output).

Section Effects.
Context {P : Platform}.

(** The world, and the round-trips issued so far (oldest first). *)
Record state : Type := {
  st_world : world;
  st_trips : list round_trip;
}.

Definition M (A : Type) : Type := state -> outcome A * state.

Definition ret {A} (a : A) : M A := fun st => (Done a, st).

Definition raise {A} (e : exn) : M A := fun st => (Raised e, st).

Definition bind {A B} (m : M A) (k : A -> M B) : M B :=
  fun st =>
    match m st with
    | (Done a, st') => k a st'
    | (Raised e, st') => (Raised e, st')
    | (OutOfFuel, st') => (OutOfFuel, st')
    end.

(** [try: m  except Exception as e: h e] *)
Definition try_except {A} (m : M A) (h : exn -> M A) : M A :=
  fun st =>
    match m st with
    | (Raised e, st') => h e st'
    | r => r
    end.

Definition lift {A} (r : result A) : M A :=
  match r with Ok a => ret a | Raise e => raise e end.

(** A library call that may change the world. *)
Definition on_world {A} (f : world -> result A * world) : M A :=
  fun st =>
    let (r, w) := f (st_world st) in
    lift r {| st_world := w; st_trips := st_trips st |}.

(** A library call that only reads the world. *)
Definition ask_world {A} (f : world -> result A) : M A :=
  fun st => lift (f (st_world st)) st.

Definition log_trip (t : round_trip) : M unit :=
  fun st => (Done tt, {| st_world := st_world st; st_trips := st_trips st ++ [t] |}).

End Effects.

Notation "'let!' x ':=' c 'in' k" := (bind c (fun x => k))
  (at level 10, x name, c at level 100, k at level 200).
Notation "'do!' c 'in' k" := (bind c (fun _ => k))
  (at level 10, c at level 100, k at level 200).

(** ** agent.py *)

(** The structured result of [fetch_url]. *)
Record PageSummary : Type := {
  title : string;
  h1s : list string;
  table_preview : option (list (list string));
  page_length : Z;
}.

(** The structured result of [analyze_csv]. *)
Record DataProfile : Type := {
  shape : Z * Z;
  columns : list string;
  non_null_counts : list (string * Z);
  dtypes : list (string * string);
  describe : list (string * list (string * pyval));
  head_records : list (list (string * pyval));
}.

(** The two results as the dicts the code builds. *)
Definition summary_dict (s : PageSummary) : pyval :=
  PDict [ ("title", PStr (title s));
          ("h1s", PList (List.map PStr (h1s s)));
          ("table_preview",
            match table_preview s with
            | None => PNone
            | Some rows => PList (List.map (fun r => PList (List.map PStr r)) rows)
            end);
          ("length", PInt (page_length s)) ].

Definition profile_dict (p : DataProfile) : pyval :=
  PDict [ ("shape", PList [PInt (fst (shape p)); PInt (snd (shape p))]);
          ("columns", PList (List.map PStr (columns p)));
          ("non_null_counts", PDict (List.map (fun kv => (fst kv, PInt (snd kv))) (non_null_counts p)));
          ("dtypes", PDict (List.map (fun kv => (fst kv, PStr (snd kv))) (dtypes p)));
          ("describe", PDict (List.map (fun kv => (fst kv, PDict (snd kv))) (describe p)));
          ("head", PList (List.map PDict (head_records p))) ].

(** [resp.raise_for_status()] *)
Definition raise_for_status (r : http_response) : result unit :=
  if (400 <=? status_code r) && (status_code r <? 600)
  then Raise (Exn "HTTPError"
                (pretty (status_code r)
                 ++ (if status_code r <? 500 then " Client Error: " else " Server Error: ")
                 ++ reason r ++ " for url: " ++ resp_url r))
  else Ok tt.

(** [type(v).__name__] *)
Definition type_name (v : pyval) : string :=
  match v with
  | PNone => "NoneType"
  | PBool _ => "bool"
  | PInt _ => "int"
  | PFloat _ => "float"
  | PStr _ => "str"
  | PList _ => "list"
  | PDict _ => "dict"
  | PObj cls => cls
  end.

(** [x] is truthy, for an optional string argument. *)
Definition given (x : option string) : bool :=
  match x with Some s => str_nonempty s | None => false end.

Section Agent.
Context {P : Platform}.

(** [url] is whatever the caller passes; of [take_table] only the truth
    value is used. *)
Definition fetch_url (url : pyval) (take_table : bool) : M PageSummary :=
  let! resp := on_world (requests_get url 20 [("User-Agent", "agent/0.1")]) in
  do! lift (raise_for_status resp) in
  let html := resp_text resp in
  let! soup := lift (BeautifulSoup html) in
  let title :=
    match find ["title"] soup with
    | Some t =>
        match tag_string t with
        | Some s => if str_nonempty s then strip s else ""
        | None => ""
        end
    | None => ""
    end in
  let h1s := List.map get_text_strip (find_all ["h1"] soup) in
  let table_preview :=
    if take_table then
      match find ["table"] soup with
      | Some table =>
          Some (foldl (fun (rows : list (list string)) tr =>
                         let cells := List.map get_text_strip (find_all ["td"; "th"] tr) in
                         (rows ++ [cells])%list)
                      [] (take 6 (find_all ["tr"] table)))
      | None => None
      end
    else None in
  ret {| title := title; h1s := h1s; table_preview := table_preview;
         page_length := Z.of_nat (String.length html) |}.

(** [pd.read_csv(path)] *)
Definition pd_read_csv_path (path : string) : M DataFrame :=
  let! text := ask_world (read_text path) in
  lift (pd_read_csv text).

Definition analyze_csv (csv path : option string) : M DataProfile :=
  let! df :=
    if given path then pd_read_csv_path (default "" path)
    else if given csv then lift (pd_read_csv (default "" csv))
    else raise (Exn "ValueError" "Provide csv (string) or path.") in
  let! stats := lift (pd_describe df) in
  ret {| shape := df_shape df;
         columns := df_columns df;
         non_null_counts := df_count df;
         dtypes := df_dtypes_dict df;
         describe := to_dict (fillna (PStr "") stats);
         head_records := to_dict_records (df_head 5 df) |}.

(** Binding the keyword arguments to a signature: a keyword outside it is a
    [TypeError]. *)
Definition check_keywords (fname : string) (allowed : list string)
    (kw : list (string * pyval)) : result unit :=
  match List.find (fun kv => negb (existsb (String.eqb (fst kv)) allowed)) kw with
  | Some kv =>
      Raise (Exn "TypeError"
               (fname ++ "() got an unexpected keyword argument '" ++ fst kv ++ "'"))
  | None => Ok tt
  end.

(** Unpacking [v] as the keyword arguments of [fname] when it is no mapping. *)
Definition not_a_mapping {A} (fname : string) (v : pyval) : M A :=
  raise (Exn "TypeError"
           (tools_module ++ "." ++ fname ++ "() argument after ** must be a mapping, not "
            ++ type_name v)).

(** [fetch_url] applied to unpacked keyword arguments. *)
Definition fetch_url_kwargs (args : pyval) : M pyval :=
  match args with
  | PDict kw =>
      do! lift (check_keywords "fetch_url" ["url"; "take_table"] kw) in
      match dict_get "url" kw with
      | None => raise (Exn "TypeError" "fetch_url() missing 1 required positional argument: 'url'")
      | Some url =>
          let take_table :=
            match dict_get "take_table" kw with Some v => truthy v | None => true end in
          let! s := fetch_url url take_table in
          ret (summary_dict s)
      end
  | v => not_a_mapping "fetch_url" v
  end.

(** An optional string argument as it was passed: a falsy value of another
    type acts as [None]; a truthy one is refused by the reader it is handed
    to, with [refusal]. *)
Definition as_optional_str (refusal : pyval -> exn) (v : option pyval)
    : result (option string) :=
  match v with
  | None => Ok None
  | Some (PStr s) => Ok (Some s)
  | Some x => if truthy x then Raise (refusal x) else Ok None
  end.

(** [pd.read_csv(x)] and [io.StringIO(x)] on an [x] that is not a string. *)
Definition invalid_path (x : pyval) : exn :=
  Exn "ValueError"
      ("Invalid file path or buffer object type: <class '" ++ type_name x ++ "'>").

Definition invalid_initial_value (x : pyval) : exn :=
  Exn "TypeError" ("initial_value must be str or None, not " ++ type_name x).

(** [analyze_csv] applied to unpacked keyword arguments. *)
Definition analyze_csv_kwargs (args : pyval) : M pyval :=
  match args with
  | PDict kw =>
      do! lift (check_keywords "analyze_csv" ["csv"; "path"] kw) in
      let! path := lift (as_optional_str invalid_path (dict_get "path" kw)) in
      let! csv := (if given path then ret None
                   else lift (as_optional_str invalid_initial_value (dict_get "csv" kw))) in
      let! p := analyze_csv csv path in
      ret (profile_dict p)
  | v => not_a_mapping "analyze_csv" v
  end.

Definition CUSTOM_TOOLS : gmap string (pyval -> M pyval) :=
  {[ "fetch_url" := fetch_url_kwargs; "analyze_csv" := analyze_csv_kwargs ]}.

End Agent.

Definition FUNCTION_SCHEMAS : list pyval :=
  [ PDict [ ("type", PStr "function");
            ("name", PStr "fetch_url");
            ("description", PStr "Fetch a URL and summarize structure; useful for scraping and quick page inspection.");
            ("parameters",
              PDict [ ("type", PStr "object");
                      ("properties",
                        PDict [ ("url", PDict [ ("type", PStr "string");
                                                ("description", PStr "HTTP or HTTPS URL to fetch") ]);
                                ("take_table", PDict [ ("type", PStr "boolean");
                                                       ("description", PStr "Whether to return first table preview");
                                                       ("default", PBool true) ]) ]);
                      ("required", PList [PStr "url"]);
                      ("additionalProperties", PBool false) ]) ];
    PDict [ ("type", PStr "function");
            ("name", PStr "analyze_csv");
            ("description", PStr "Analyze CSV data from a file path or inline CSV content. Provide either 'csv' or 'path'.");
            ("parameters",
              PDict [ ("type", PStr "object");
                      ("properties",
                        PDict [ ("csv", PDict [ ("type", PStr "string");
                                                ("description", PStr "Inline CSV content") ]);
                                ("path", PDict [ ("type", PStr "string");
                                                 ("description", PStr "Path to a CSV file") ]) ]);
                      ("additionalProperties", PBool false) ]) ] ].

(** [getattr(x, "text", "") or getattr(x, "value", "")] *)
Definition text_or_value (text value : pyattr) : pyattr :=
  attr_or (getattr_str text) (getattr_str value).

Definition attr_text (a : pyattr) : string :=
  match a with IsStr s => s | _ => "" end.

Definition content_truthy (c : option (list block)) : bool :=
  match c with Some (_ :: _) => true | _ => false end.

(** The body of [for block in item.content]. *)
Definition collect_block (chunks : list pyattr) (b : block) : list pyattr :=
  if attr_in (block_type b) ["output_text"; "text"]
  then (chunks ++ [text_or_value (block_text b) (block_value b)])%list
  else chunks.

(** The body of [for item in resp.output]. *)
Definition collect_item (chunks : list pyattr) (it : item) : list pyattr :=
  if attr_is (item_type it) "message" && content_truthy (item_content it) then
    foldl collect_block chunks (default [] (item_content it))
  else if attr_in (item_type it) ["output_text"; "text"]
  then (chunks ++ [text_or_value (item_text it) (item_value it)])%list
  else chunks.

Definition extract_text (resp : response) : string :=
  let chunks := foldl collect_item [] (default [] (resp_output resp)) in
  join nl (List.map attr_text (List.filter attr_truthy chunks)).

(** The items of a response tagged [tool_call]. *)
Definition tool_calls_of (resp : response) : list item :=
  List.filter (fun it => attr_is (item_type it) "tool_call") (default [] (resp_output resp)).

Definition error_payload (e : exn) : pyval := PDict [("error", PStr (str_exn e))].

Section Loop.
Context {P : Platform}.

Definition client_responses_create (model prompt : string) (tools : list pyval) : M response :=
  do! log_trip (TripCreate prompt) in
  on_world (responses_create model
              (PList [PDict [("role", PStr "user"); ("content", PStr prompt)]]) tools).

Definition client_submit_tool_outputs (resp : response) (tool_outputs : list tool_output)
    : M response :=
  do! log_trip (TripSubmit resp tool_outputs) in
  on_world (responses_submit_tool_outputs (resp_id resp) tool_outputs).

(** The body of [for call in tool_calls]. *)
Definition run_call (tool_outputs : list tool_output) (call : item) : M (list tool_output) :=
  let name := call_name call in
  let args := py_or (call_arguments call) (PDict []) in
  match CUSTOM_TOOLS !! name with
  | Some tool =>
      try_except
        (let! result := tool args in
         let! out := lift (json_dumps result) in
         ret (tool_outputs ++ [{| tool_call_id := call_id call; output := out |}])%list)
        (fun e =>
         let! out := lift (json_dumps (error_payload e)) in
         ret (tool_outputs ++ [{| tool_call_id := call_id call; output := out |}])%list)
  | None => ret tool_outputs
  end.

Fixpoint run_calls (tool_calls : list item) (tool_outputs : list tool_output)
    : M (list tool_output) :=
  match tool_calls with
  | [] => ret tool_outputs
  | call :: rest =>
      let! tool_outputs' := run_call tool_outputs call in
      run_calls rest tool_outputs'
  end.

(** [while True: ...], with a bound on the number of iterations. *)
Fixpoint tool_loop (fuel : nat) (resp : response) : M response :=
  match fuel with
  | O => fun st => (OutOfFuel, st)
  | S fuel' =>
      let tool_calls := tool_calls_of resp in
      match tool_calls with
      | [] => ret resp
      | _ :: _ =>
          let! tool_outputs := run_calls tool_calls [] in
          match tool_outputs with
          | _ :: _ =>
              let! resp' := client_submit_tool_outputs resp tool_outputs in
              tool_loop fuel' resp'
          | [] => ret resp
          end
      end
  end.

Definition run_with_tools (fuel : nat) (prompt : string) (tools_config : list pyval)
    : M response :=
  let! resp := client_responses_create "gpt-4.1" prompt tools_config in
  tool_loop fuel resp.

End Loop.

(** ** agent.py: the command line *)

(** What a run of the command line leaves: the text of each [print] call,
    in order (one text may span several lines), and the exit status. *)
Record cli_result : Type := {
  printed : list string;
  exit_status : Z;
}.

Definition usage : string :=
  "Usage: python agent.py " ++ dquote ++ "your natural-language task here" ++ dquote.

Definition no_final_text : string := "[No final text output]".

Section Cli.
Context {P : Platform}.

(** [main()], given [sys.argv]. [sys.exit(1)] ends the run with status 1;
    [Raised] is an exception nobody catches. *)
Definition main (fuel : nat) (argv : list string) : M cli_result :=
  if (length argv <? 2)%nat then
    ret {| printed := [usage]; exit_status := 1 |}
  else
    let user_prompt := join " " (drop 1 argv) in
    let tools_config := PDict [("type", PStr "web_search")] :: FUNCTION_SCHEMAS in
    let! resp := run_with_tools fuel user_prompt tools_config in
    let final_text := extract_text resp in
    ret {| printed := [if str_nonempty (strip final_text) then final_text else no_final_text];
           exit_status := 0 |}.

End Cli.

(** ** flask_app.py *)

Record flask_reply : Type := {
  reply_status : Z;
  reply_json : pyval;
}.

Definition jsonify (v : pyval) (status : Z) : flask_reply :=
  {| reply_status := status; reply_json := v |}.

Definition no_attribute (v : pyval) (attr : string) : exn :=
  Exn "AttributeError" ("'" ++ type_name v ++ "' object has no attribute '" ++ attr ++ "'").

(** A request to [/run]: the body as [get_json(force=True, silent=True)]
    reads it, [None] when it does not parse. *)
Record flask_request : Type := { request_json : option pyval }.

Section Flask.
Context {P : Platform}.

(** [data.get(key)]: only a dict has the method. *)
Definition method_get (data : pyval) (key : string) : M pyval :=
  match data with
  | PDict d => ret (default PNone (dict_get key d))
  | v => raise (no_attribute v "get")
  end.

(** [v.strip()]: only a string has the method. *)
Definition method_strip (v : pyval) : M string :=
  match v with
  | PStr s => ret (strip s)
  | v => raise (no_attribute v "strip")
  end.

(** [Raised] is an exception that leaves the view function. *)
Definition run_endpoint (fuel : nat) (request : flask_request) : M flask_reply :=
  let data := py_or (default PNone (request_json request)) (PDict []) in
  let! got := method_get data "prompt" in
  let! prompt := method_strip (py_or got (PStr "")) in
  if negb (str_nonempty prompt) then
    ret (jsonify (PDict [("ok", PBool false); ("error", PStr "Missing prompt")]) 400)
  else
    try_except
      (let tools_config := PDict [("type", PStr "web_search")] :: FUNCTION_SCHEMAS in
       let! resp := run_with_tools fuel prompt tools_config in
       let text := extract_text resp in
       ret (jsonify (PDict [("ok", PBool true); ("text", PStr text)]) 200))
      (fun e =>
       ret (jsonify (PDict [("ok", PBool false); ("error", PStr (str_exn e))]) 500)).

End Flask.

(** ** A scripted platform, to run the model on concrete inputs *)

Module Demo.

#[global] Instance df_wf_dec (df : DataFrame) : Decision (df_wf df).
Proof. unfold df_wf. apply _. Defined.

Fixpoint split_on (sep : ascii) (s : string) : list string :=
  match s with
  | EmptyString => [""]
  | String c s' =>
      if Ascii.eqb c sep then "" :: split_on sep s'
      else match split_on sep s' with
           | w :: ws => String c w :: ws
           | [] => [String c ""]
           end
  end.

Definition cell_of (s : string) : option pyval :=
  if str_nonempty s then Some (PStr s) else None.

(** Comma-separated lines, the first one the header; every column has dtype
    [object]. Ragged rows and repeated labels are refused. *)
Definition read_csv (text : string) : result DataFrame :=
  match List.filter str_nonempty (split_on (ascii_of_nat 10) text) with
  | [] => Raise (Exn "EmptyDataError" "No columns to parse from file")
  | header :: lines =>
      let cols := split_on "," header in
      let df := {| df_columns := cols;
                   df_dtypes := List.map (fun _ => "object") cols;
                   df_index := List.map (fun i => pretty i) (seq 0 (length lines));
                   df_rows := List.map (fun l => List.map cell_of (split_on "," l)) lines |} in
      if decide (df_wf df) then Ok df
      else Raise (Exn "ParserError" "Error tokenizing data")
  end.

Lemma read_csv_wf (s : string) (df : DataFrame) : read_csv s = Ok df -> df_wf df.
Proof.
  unfold read_csv. destruct (List.filter _ _) as [|header lines]; [discriminate|].
  cbv zeta. case_decide; [|discriminate]. intros [= <-]. assumption.
Qed.

(** Two statistics per column: the number of cells held, and [top], left
    empty. *)
Definition describe_frame (df : DataFrame) : result DataFrame :=
  match df_columns df with
  | [] => Raise (Exn "ValueError" "Cannot describe a DataFrame without columns")
  | _ =>
      Ok {| df_columns := df_columns df;
            df_dtypes := List.map (fun _ => "object") (df_columns df);
            df_index := ["count"; "top"];
            df_rows := [ List.map (fun kv => Some (PInt (snd kv))) (df_count df);
                         List.map (fun _ => None) (df_columns df) ] |}
  end.

Lemma describe_frame_wf (df stats : DataFrame) :
  df_wf df -> describe_frame df = Ok stats ->
  df_wf stats /\ df_columns stats = df_columns df.
Proof.
  intros (Hnodup & _). unfold describe_frame.
  destruct (df_columns df) as [|c cs] eqn:Hcols; [discriminate|].
  intros [= <-]. split; [|reflexivity].
  unfold df_wf. cbn [df_columns df_dtypes df_index df_rows].
  split; [exact Hnodup|]. split; [cbn; rewrite length_map; reflexivity|].
  split; [reflexivity|].
  repeat constructor.
  - rewrite length_map. unfold df_count. rewrite length_imap, Hcols. reflexivity.
  - cbn. rewrite length_map. reflexivity.
Qed.

Definition cell (tag text : string) : node := Tag tag [NavigableString Plain text].

(** A page with two headings and two tables. The first heading holds a
    comment and the first cell a script, which are no text of theirs. *)
Definition demo_page : node :=
  Tag "[document]"
    [ NavigableString Doctype "html";
      Tag "html"
        [ Tag "head" [ Tag "title" [NavigableString Plain "  Prices  "] ];
          Tag "body"
            [ Tag "h1" [NavigableString Comment " banner "; NavigableString Plain "Fruit"];
              Tag "table"
                [ Tag "tr" [ Tag "th" [ NavigableString Plain "name";
                                        Tag "script" [NavigableString Script "sort()"] ];
                             cell "th" "price" ];
                  Tag "tr" [cell "td" "apple"; cell "td" "1"];
                  Tag "tr" [cell "td" "pear"];
                  Tag "tr" [cell "td" "plum"; cell "td" "3"; cell "td" "x"];
                  Tag "tr" [cell "td" "fig"; cell "td" "4"];
                  Tag "tr" [cell "td" "kiwi"; cell "td" "5"];
                  Tag "tr" [cell "td" "lime"; cell "td" "6"] ];
              Tag "h1" [Tag "b" [NavigableString Plain " Nuts "]];
              Tag "table" [ Tag "tr" [cell "td" "hazel"] ] ] ] ].

(** A page whose first [title] element is empty; the drawing further down
    has a title of its own. *)
Definition two_titles_page : node :=
  Tag "[document]"
    [ Tag "html"
        [ Tag "head" [ Tag "title" [] ];
          Tag "body"
            [ Tag "svg" [ Tag "title" [NavigableString Plain "Logo"] ];
              Tag "h1" [NavigableString Plain "Welcome"] ] ] ].

(** What the scripted parser makes of a body. *)
Definition parse (html : string) : result node :=
  if String.eqb html "<html>" then Ok demo_page
  else if String.eqb html "<svg>" then Ok two_titles_page
  else if String.eqb html "<![spam]>" then
    Raise (Exn "ParserRejectedMarkup"
             "AssertionError: unknown status keyword 'spam' in marked section")
  else Ok (Tag "[document]" [NavigableString Plain html]).

(** What the scripted web answers. *)
Definition get (url : pyval) : result http_response :=
  match url with
  | PStr u =>
      if String.eqb u "http://shop.test/" then
        Ok {| status_code := 200; reason := "OK"; resp_url := u; resp_text := "<html>" |}
      else if String.eqb u "http://shop.test/logo" then
        Ok {| status_code := 200; reason := "OK"; resp_url := u; resp_text := "<svg>" |}
      else if String.eqb u "http://shop.test/broken" then
        Ok {| status_code := 200; reason := "OK"; resp_url := u; resp_text := "<![spam]>" |}
      else if String.eqb u "http://shop.test/gone" then
        Ok {| status_code := 404; reason := "Not Found"; resp_url := u; resp_text := "" |}
      else Raise (Exn "ConnectionError" "Failed to establish a new connection")
  | _ => Raise (Exn "MissingSchema" "Invalid URL: No scheme supplied.")
  end.

(** What the scripted file system holds. *)
Definition read (path : string) : result string :=
  if String.eqb path "data.csv" then Ok ("a,b" ++ nl ++ "1,2" ++ nl ++ "3,4" ++ nl)
  else Raise (Exn "FileNotFoundError" "No such file or directory").

(** The replies the endpoint will give, in order. *)
Record demo_world : Type := { script : list (result response) }.

Definition next_reply (w : demo_world) : result response * demo_world :=
  match script w with
  | [] => (Raise (Exn "APIConnectionError" "Connection error."), w)
  | r :: rest => (r, {| script := rest |})
  end.

#[global] Instance scripted : Platform := {|
  world := demo_world;
  tools_module := "agent";
  requests_get := fun url _ _ w => (get url, w);
  BeautifulSoup := parse;
  read_text := fun path _ => read path;
  pd_read_csv := read_csv;
  pd_read_csv_wf := read_csv_wf;
  pd_describe := describe_frame;
  pd_describe_wf := describe_frame_wf;
  responses_create := fun _ _ _ w => next_reply w;
  responses_submit_tool_outputs := fun _ _ w => next_reply w;
|}.

Definition start (replies : list (result response)) : state :=
  {| st_world := {| script := replies |}; st_trips := [] |}.

Definition tool_call (id name : string) (args : pyval) : item :=
  {| item_type := IsStr "tool_call"; item_content := None; item_text := Missing;
     item_value := Missing; call_id := id; call_name := name; call_arguments := args |}.

Definition text_block (ty : string) (text value : pyattr) : block :=
  {| block_type := IsStr ty; block_text := text; block_value := value |}.

Definition message (blocks : list block) : item :=
  {| item_type := IsStr "message"; item_content := Some blocks; item_text := Missing;
     item_value := Missing; call_id := ""; call_name := ""; call_arguments := PNone |}.

Definition bare (ty : string) (text value : pyattr) : item :=
  {| item_type := IsStr ty; item_content := None; item_text := text;
     item_value := value; call_id := ""; call_name := ""; call_arguments := PNone |}.

Definition reply (id : string) (items : list item) : response :=
  {| resp_id := id; resp_output := Some items |}.

(** Two data rows under a header; the file [data.csv] holds the same text. *)
Definition inline_csv : string := "a,b" ++ nl ++ "1,2" ++ nl ++ "3,4".

(** The tool set both front ends pass to the loop. *)
Definition tools_config : list pyval :=
  PDict [("type", PStr "web_search")] :: FUNCTION_SCHEMAS.

(** A first reply asking for a registered tool and for one the registry
    does not know, then a final message. *)
Definition mixed_round : response :=
  reply "r1" [tool_call "a" "analyze_csv" PNone; tool_call "b" "web_search" PNone].

Definition final_reply : response :=
  reply "r2" [message [text_block "output_text" (IsStr "done") Missing]].

(** A reply asking only for tools the registry does not know. *)
Definition unknown_round : response :=
  reply "r1" [tool_call "a" "web_search" PNone; tool_call "b" "run_python" (PDict [])].

(** A final message of two text blocks. *)
Definition two_line_reply : response :=
  reply "r3" [message [ text_block "output_text" (IsStr "one") Missing;
                        text_block "text" Missing (IsStr "two") ]].

(** A platform whose endpoint never stops asking: whatever it is sent, it
    answers with [mixed_round]. *)
Definition insistent : Platform := {|
  world := unit;
  tools_module := "agent";
  requests_get := fun url _ _ w => (get url, w);
  BeautifulSoup := parse;
  read_text := fun path _ => read path;
  pd_read_csv := read_csv;
  pd_read_csv_wf := read_csv_wf;
  pd_describe := describe_frame;
  pd_describe_wf := describe_frame_wf;
  responses_create := fun _ _ _ w => (Ok mixed_round, w);
  responses_submit_tool_outputs := fun _ _ w => (Ok mixed_round, w);
|}.

Definition insistent_start : @state insistent := @Build_state insistent tt [].

End Demo.

(** * The vocabulary of the properties *)

Section Vocabulary.
Context {P : Platform}.

(** [quiet m]: [m] returns or raises, and issues no round-trip. *)
Definition quiet {A} (m : M A) : Prop :=
  forall st, fst (m st) <> OutOfFuel /\ st_trips (snd (m st)) = st_trips st.

(** [call.name in CUSTOM_TOOLS] *)
Definition registered (call : item) : bool :=
  bool_decide (is_Some (CUSTOM_TOOLS !! call_name call)).

(** [json.dumps({"error": str(e)})] *)
Definition error_output (e : exn) : string :=
  "{" ++ quote "error" ++ ": " ++ quote (str_exn e) ++ "}".

(** What the loop may submit: a batch that is not empty and carries, in
    order, the ids of the registered calls of the response it answers. *)
Definition round_ok (t : round_trip) : Prop :=
  match t with
  | TripCreate _ => True
  | TripSubmit resp batch =>
      batch <> []
      /\ List.map tool_call_id batch
         = List.map call_id (List.filter registered (tool_calls_of resp))
  end.

(** How many outputs of a batch carry the correlation token [id]. *)
Definition results_for (id : string) (batch : list tool_output) : nat :=
  length (List.filter (fun o => String.eqb (tool_call_id o) id) batch).

(** What the invariant of the specification asks of a submission: every
    call of the answered response has exactly one output under its id. *)
Definition answers_every_call (t : round_trip) : Prop :=
  match t with
  | TripCreate _ => True
  | TripSubmit resp batch =>
      Forall (fun call => results_for (call_id call) batch = 1%nat) (tool_calls_of resp)
  end.

(** The profile built from whatever frame [read] yields: the part of
    [analyze_csv] after the frame is chosen. *)
Definition profile_from (read : M DataFrame) : M DataProfile :=
  let! df := read in
  let! stats := lift (pd_describe df) in
  ret {| shape := df_shape df;
         columns := df_columns df;
         non_null_counts := df_count df;
         dtypes := df_dtypes_dict df;
         describe := to_dict (fillna (PStr "") stats);
         head_records := to_dict_records (df_head 5 df) |}.

Definition provide_csv_or_path : exn := Exn "ValueError" "Provide csv (string) or path.".

(** The choice as the specification words it: by presence, [path] first. *)
Definition analyze_csv_by_presence (csv path : option string) : M DataProfile :=
  match path, csv with
  | Some p, _ => profile_from (pd_read_csv_path p)
  | None, Some c => profile_from (lift (pd_read_csv c))
  | None, None => raise provide_csv_or_path
  end.

(** The text of an item or block as the specification words it: the [text]
    field when it holds a non-empty string, the [value] field otherwise. *)
Definition found_text (text value : pyattr) : string :=
  if attr_truthy text then attr_text text else attr_text value.

(** The texts an output item carries, in order: for a message, those of
    its text blocks; for a bare text item, its own. *)
Definition texts_of_item (it : item) : list string :=
  if attr_is (item_type it) "message" then
    List.map (fun b => found_text (block_text b) (block_value b))
             (List.filter (fun b => attr_in (block_type b) ["output_text"; "text"])
                          (default [] (item_content it)))
  else if attr_in (item_type it) ["output_text"; "text"] then
    [found_text (item_text it) (item_value it)]
  else [].



(** A prompt the handler can strip: nothing, a falsy value, or a string. *)
Definition prompt_ok (v : pyval) : Prop :=
  truthy v = false \/ exists s, v = PStr s.

(** A body the handler can read: unparseable, falsy, or an object whose
    [prompt] can be stripped. *)
Definition body_ok (request : flask_request) : Prop :=
  match request_json request with
  | None => True
  | Some v =>
      truthy v = false
      \/ exists d, v = PDict d /\ prompt_ok (default PNone (dict_get "prompt" d))
  end.

Definition json_ok (reply : flask_reply) (ok : bool) (key : string) : Prop :=
  exists s, reply_json reply = PDict [("ok", PBool ok); (key, PStr s)].

End Vocabulary.

(** * More vocabulary: serialisation, schemas, whitespace, front ends *)

(** [json.dumps(v)] returns. *)
Definition serializable (v : pyval) : Prop := exists text, json_dumps v = Ok text.

(** The [name] and the declared property names of a function schema. *)
Definition schema_name (schema : pyval) : option string :=
  match schema with
  | PDict d => match dict_get "name" d with Some (PStr n) => Some n | _ => None end
  | _ => None
  end.

Definition schema_properties (schema : pyval) : list string :=
  match schema with
  | PDict d =>
      match dict_get "parameters" d with
      | Some (PDict ps) =>
          match dict_get "properties" ps with
          | Some (PDict props) => List.map fst props
          | _ => []
          end
      | _ => []
      end
  | _ => []
  end.

(** The properties [FUNCTION_SCHEMAS] declares for the tool [name]. *)
Definition declared_properties (name : string) : option (list string) :=
  option_map schema_properties
    (List.find (fun schema => bool_decide (schema_name schema = Some name)) FUNCTION_SCHEMAS).

(** The [take_table] argument as a call passes it: its truth value, [True]
    when it is left out. *)
Definition take_table_of (kw : list (string * pyval)) : bool :=
  match dict_get "take_table" kw with Some v => truthy v | None => true end.

(** A string begins, or ends, with a whitespace character. *)
Definition starts_with_space (s : string) : bool :=
  match s with
  | EmptyString => false
  | String c _ => py_isspace c
  end.

Fixpoint ends_with_space (s : string) : bool :=
  match s with
  | EmptyString => false
  | String c EmptyString => py_isspace c
  | String _ s' => ends_with_space s'
  end.

(** No whitespace at either end. *)
Definition tidy (s : string) : Prop :=
  starts_with_space s = false /\ ends_with_space s = false.

(** What [pd.to_dict()] of [describe] holds for one column: the row labels
    of the statistics. *)
Definition stat_labels (entry : string * list (string * pyval)) : list string :=
  List.map fst (snd entry).

(** A response with the given output items. *)
Definition response_of (items : list item) : response :=
  {| resp_id := ""; resp_output := Some items |}.

(** Two texts joined by a newline, unless one of them is empty. *)
Definition glue (a b : string) : string :=
  if str_nonempty a then (if str_nonempty b then a ++ nl ++ b else a) else b.

(** An item [extract_text] looks into. *)
Definition carries_text (it : item) : bool :=
  attr_is (item_type it) "message" || attr_in (item_type it) ["output_text"; "text"].

(** A round-trip that submits tool outputs. *)
Definition is_submit (t : round_trip) : Prop :=
  match t with TripSubmit _ _ => True | TripCreate _ => False end.

(** ** Scenarios on the scripted platform *)

Module Scenarios.
Import Demo.

Definition shop_summary : PageSummary :=
  Eval vm_compute in
    match fst (fetch_url (PStr "http://shop.test/") true (start [])) with
    | Done s => s
    | _ => {| title := ""; h1s := []; table_preview := None; page_length := 0 |}
    end.

Definition inline_profile : DataProfile :=
  Eval vm_compute in
    match fst (analyze_csv (Some inline_csv) None (start [])) with
    | Done p => p
    | _ => {| shape := (0, 0); columns := []; non_null_counts := []; dtypes := [];
              describe := []; head_records := [] |}
    end.

Definition mixed_script : list (result response) := [Ok mixed_round; Ok final_reply].

Definition mixed_trips : list round_trip :=
  [ TripCreate "hi";
    TripSubmit mixed_round
      [ {| tool_call_id := "a";
           output := error_output (Exn "ValueError" "Provide csv (string) or path.") |} ] ].

Definition shop_call : item :=
  tool_call "a" "fetch_url" (PDict [("url", PStr "http://shop.test/")]).

Definition gone_call : item :=
  tool_call "g" "fetch_url"
    (PDict [("url", PStr "http://shop.test/gone"); ("take_table", PBool false)]).

(** A page the scripted parser rejects. *)
Definition broken_call : item :=
  tool_call "x" "fetch_url" (PDict [("url", PStr "http://shop.test/broken")]).

(** Arguments that arrive as a text, not as an object. *)
Definition text_call : item := tool_call "t" "fetch_url" (PStr "{}").

Definition verbose_call : item :=
  tool_call "v" "analyze_csv" (PDict [("csv", PStr "a,b"); ("verbose", PBool true)]).

(** Items none of which carries a text. *)
Definition blank_items : list item :=
  [tool_call "a" "fetch_url" PNone; bare "text" (IsStr "") IsNone;
   message [text_block "refusal" (IsStr "no") Missing]].

End Scenarios.

(** * Properties *)

(** ** Computations that neither diverge nor talk to the endpoint *)

Section Quiet.
Context {P : Platform}.

Lemma quiet_ret {A} (a : A) : quiet (ret a).
Proof. intros st. split; [discriminate | reflexivity]. Qed.

Lemma quiet_raise {A} (e : exn) : quiet (raise (A := A) e).
Proof. intros st. split; [discriminate | reflexivity]. Qed.

Lemma quiet_lift {A} (r : result A) : quiet (lift r).
Proof. destruct r; [apply quiet_ret | apply quiet_raise]. Qed.

Lemma quiet_on_world {A} (f : world -> result A * world) : quiet (on_world f).
Proof.
  intros st. unfold on_world. destruct (f (st_world st)) as [[a|e] w]; simpl.
  all: split; [discriminate | reflexivity].
Qed.

Lemma quiet_ask_world {A} (f : world -> result A) : quiet (ask_world f).
Proof. intros st. unfold ask_world. apply quiet_lift. Qed.

Lemma quiet_bind {A B} (m : M A) (k : A -> M B) :
  quiet m -> (forall a, quiet (k a)) -> quiet (bind m k).
Proof.
  intros Hm Hk st. unfold bind. specialize (Hm st).
  destruct (m st) as [[a|e|] st1]; simpl in Hm; destruct Hm as [Hfuel Htrips].
  - destruct (Hk a st1) as [H1 H2]. split; [exact H1 | congruence].
  - split; [discriminate | exact Htrips].
  - contradiction.
Qed.

Lemma quiet_try_except {A} (m : M A) (h : exn -> M A) :
  quiet m -> (forall e, quiet (h e)) -> quiet (try_except m h).
Proof.
  intros Hm Hh st. unfold try_except. specialize (Hm st).
  destruct (m st) as [[a|e|] st1]; simpl in Hm; destruct Hm as [Hfuel Htrips].
  - split; [discriminate | exact Htrips].
  - destruct (Hh e st1) as [H1 H2]. split; [exact H1 | congruence].
  - contradiction.
Qed.

Lemma quiet_fetch_url (url : pyval) (take_table : bool) : quiet (fetch_url url take_table).
Proof.
  unfold fetch_url. apply quiet_bind; [apply quiet_on_world | intros resp].
  apply quiet_bind; [apply quiet_lift | intros _].
  apply quiet_bind; [apply quiet_lift | intros soup]. apply quiet_ret.
Qed.

Lemma quiet_analyze_csv (csv path : option string) : quiet (analyze_csv csv path).
Proof.
  unfold analyze_csv. apply quiet_bind.
  - destruct (given path); [|destruct (given csv)].
    + unfold pd_read_csv_path. apply quiet_bind; [apply quiet_ask_world | intros t; apply quiet_lift].
    + apply quiet_lift.
    + apply quiet_raise.
  - intros df. apply quiet_bind; [apply quiet_lift | intros stats; apply quiet_ret].
Qed.

Lemma quiet_fetch_url_kwargs (args : pyval) : quiet (fetch_url_kwargs args).
Proof.
  unfold fetch_url_kwargs, not_a_mapping. destruct args; try apply quiet_raise.
  apply quiet_bind; [apply quiet_lift | intros _].
  destruct (dict_get "url" entries) as [url|]; [|apply quiet_raise].
  apply quiet_bind; [apply quiet_fetch_url | intros summary; apply quiet_ret].
Qed.

Lemma quiet_analyze_csv_kwargs (args : pyval) : quiet (analyze_csv_kwargs args).
Proof.
  unfold analyze_csv_kwargs, not_a_mapping. destruct args; try apply quiet_raise.
  apply quiet_bind; [apply quiet_lift | intros _].
  apply quiet_bind; [apply quiet_lift | intros path].
  apply quiet_bind; [destruct (given path); [apply quiet_ret | apply quiet_lift] | intros csv].
  apply quiet_bind; [apply quiet_analyze_csv | intros p; apply quiet_ret].
Qed.

(** The registry holds exactly the two tools. *)
Lemma CUSTOM_TOOLS_lookup (name : string) :
  CUSTOM_TOOLS !! name =
    if decide (name = "fetch_url") then Some fetch_url_kwargs
    else if decide (name = "analyze_csv") then Some analyze_csv_kwargs
    else None.
Proof.
  unfold CUSTOM_TOOLS. rewrite lookup_insert.
  repeat case_decide; subst; try congruence.
  - rewrite lookup_singleton_eq. reflexivity.
  - rewrite lookup_singleton_ne; congruence.
Qed.

Lemma quiet_tool (name : string) (tool : pyval -> M pyval) (args : pyval) :
  CUSTOM_TOOLS !! name = Some tool -> quiet (tool args).
Proof.
  rewrite CUSTOM_TOOLS_lookup. repeat case_decide; intros [= <-].
  - apply quiet_fetch_url_kwargs.
  - apply quiet_analyze_csv_kwargs.
Qed.

End Quiet.

(** ** The tool-invocation loop *)

Section LoopFacts.
Context {P : Platform}.

Lemma json_dumps_error_payload (e : exn) :
  json_dumps (error_payload e) = Ok (error_output e).
Proof. reflexivity. Qed.

Lemma registered_true (call : item) :
  registered call = true <-> exists tool, CUSTOM_TOOLS !! call_name call = Some tool.
Proof. unfold registered. rewrite bool_decide_eq_true. reflexivity. Qed.

Lemma registered_false (call : item) :
  registered call = false <-> CUSTOM_TOOLS !! call_name call = None.
Proof.
  unfold registered. rewrite bool_decide_eq_false, <- eq_None_not_Some. reflexivity.
Qed.

(** A call whose name is in the registry appends exactly one output, under
    the call's id, whatever the tool does. *)
Lemma run_call_registered (call : item) (tool : pyval -> M pyval)
    (outs : list tool_output) (st : state) :
  CUSTOM_TOOLS !! call_name call = Some tool ->
  exists out st',
    run_call outs call st
      = (Done (outs ++ [{| tool_call_id := call_id call; output := out |}])%list, st')
    /\ st_trips st' = st_trips st.
Proof.
  intros Hreg. unfold run_call. rewrite Hreg. unfold try_except, bind at 1.
  destruct (quiet_tool _ _ (py_or (call_arguments call) (PDict [])) Hreg st) as [Hfuel Htrips].
  destruct (tool _ st) as [[r|e|] st1]; simpl in Hfuel, Htrips; [| |contradiction].
  - unfold bind. destruct (json_dumps r) as [s|e]; simpl.
    + eauto.
    + eauto.
  - unfold bind; simpl. eauto.
Qed.

(** A call whose name is not in the registry is skipped. *)
Lemma run_call_unregistered (call : item) (outs : list tool_output) (st : state) :
  CUSTOM_TOOLS !! call_name call = None -> run_call outs call st = (Done outs, st).
Proof. intros Hmiss. unfold run_call. rewrite Hmiss. reflexivity. Qed.

(** The batch collected in a round: one output per registered call, in the
    order of the calls; no round-trip is issued meanwhile. *)
Lemma run_calls_ids (calls : list item) (outs : list tool_output) (st : state) :
  exists outs' st',
    run_calls calls outs st = (Done outs', st')
    /\ List.map tool_call_id outs'
       = (List.map tool_call_id outs ++ List.map call_id (List.filter registered calls))%list
    /\ st_trips st' = st_trips st.
Proof.
  revert outs st. induction calls as [|call rest IH]; intros outs st; simpl.
  - exists outs, st. rewrite app_nil_r. auto.
  - unfold bind. destruct (registered call) eqn:Hreg.
    + apply registered_true in Hreg as [tool Htool].
      destruct (run_call_registered call tool outs st Htool) as (out & st1 & -> & Htrips).
      destruct (IH (outs ++ [{| tool_call_id := call_id call; output := out |}])%list st1)
        as (outs' & st' & -> & Hids & Htrips').
      exists outs', st'. split; [reflexivity|]. split; [|congruence].
      rewrite Hids, List.map_app. simpl. rewrite <- app_assoc. reflexivity.
    + apply registered_false in Hreg. rewrite (run_call_unregistered _ _ _ Hreg).
      apply IH.
Qed.

Lemma results_for_absent (id : string) (batch : list tool_output) :
  ~ In id (List.map tool_call_id batch) -> results_for id batch = 0%nat.
Proof.
  unfold results_for. induction batch as [|o batch IH]; [reflexivity|]. simpl.
  intros Hnotin. destruct (String.eqb_spec (tool_call_id o) id) as [Heq|Hne].
  - exfalso. apply Hnotin. left. exact Heq.
  - apply IH. intros Hin. apply Hnotin. right. exact Hin.
Qed.

(** When the ids of the calls are pairwise distinct, a batch carrying the
    ids of the registered calls holds one output for a registered call and
    none for another call. *)
Lemma results_for_call (calls : list item) (batch : list tool_output) (call : item) :
  List.map tool_call_id batch = List.map call_id (List.filter registered calls) ->
  NoDup (List.map call_id calls) ->
  In call calls ->
  results_for (call_id call) batch = if registered call then 1%nat else 0%nat.
Proof.
  revert batch. induction calls as [|c cs IH]; intros batch Hids Hnodup Hin; [destruct Hin|].
  simpl in Hnodup. apply NoDup_cons in Hnodup as [Hfresh Hnodup].
  assert (forall x, In x (List.map call_id (List.filter registered cs)) ->
                    In x (List.map call_id cs)) as Hsub.
  { intros x Hx. apply in_map_iff in Hx as (c' & <- & Hc').
    apply filter_In in Hc' as [Hc' _]. apply in_map. exact Hc'. }
  rewrite list_elem_of_In in Hfresh.
  simpl in Hids. destruct Hin as [->|Hin].
  - destruct (registered call) eqn:Hreg.
    + destruct batch as [|o batch]; [discriminate Hids|]. simpl in Hids.
      injection Hids as Ho Hids. unfold results_for. simpl.
      rewrite Ho, String.eqb_refl. simpl. f_equal.
      apply results_for_absent. rewrite Hids. auto.
    + apply results_for_absent. rewrite Hids. auto.
  - assert (call_id c <> call_id call) as Hne.
    { intros Heq. apply Hfresh. rewrite Heq. apply in_map. exact Hin. }
    destruct (registered c).
    + destruct batch as [|o batch]; [discriminate Hids|]. simpl in Hids.
      injection Hids as Ho Hids. unfold results_for. simpl.
      rewrite Ho. destruct (String.eqb_spec (call_id c) (call_id call)); [contradiction|].
      apply (IH batch Hids Hnodup Hin).
    + apply (IH batch Hids Hnodup Hin).
Qed.

Lemma tool_loop_trips (fuel : nat) (resp : response) (st : state) :
  exists new,
    st_trips (snd (tool_loop fuel resp st)) = (st_trips st ++ new)%list
    /\ Forall round_ok new.
Proof.
  revert resp st. induction fuel as [|fuel IH]; intros resp st; simpl.
  { exists []. rewrite app_nil_r. auto. }
  destruct (tool_calls_of resp) as [|c cs] eqn:Hcalls.
  { exists []. rewrite app_nil_r. auto. }
  unfold bind at 1.
  destruct (run_calls_ids (c :: cs) [] st) as (outs & st1 & -> & Hids & Htrips).
  destruct outs as [|o outs].
  { exists []. simpl. rewrite app_nil_r. auto. }
  unfold client_submit_tool_outputs, bind, log_trip, on_world. simpl.
  destruct (responses_submit_tool_outputs _ _ _) as [[resp'|e] w]; simpl.
  - destruct (IH resp' {| st_world := w;
                          st_trips := (st_trips st1 ++ [TripSubmit resp (o :: outs)])%list |})
      as (new & -> & Hnew).
    exists (TripSubmit resp (o :: outs) :: new). simpl.
    rewrite Htrips, <- app_assoc. split; [reflexivity|].
    constructor; [|exact Hnew]. simpl. rewrite Hcalls. split; [discriminate | exact Hids].
  - exists [TripSubmit resp (o :: outs)]. rewrite Htrips. split; [reflexivity|].
    constructor; [|constructor]. simpl. rewrite Hcalls. split; [discriminate | exact Hids].
Qed.

(** A response without tool calls ends the loop at once. *)
Lemma tool_loop_terminal (fuel : nat) (resp : response) (st : state) :
  tool_calls_of resp = [] -> tool_loop (S fuel) resp st = (Done resp, st).
Proof. intros Hnone. simpl. rewrite Hnone. reflexivity. Qed.

End LoopFacts.

Section LoopClaims.
Context {P : Platform}.

Lemma run_calls_empty_iff (calls : list item) (st : state) :
  fst (run_calls calls [] st) = Done []
  <-> Forall (fun call => CUSTOM_TOOLS !! call_name call = None) calls.
Proof.
  destruct (run_calls_ids calls [] st) as (outs & st' & Hrun & Hids & _).
  rewrite Hrun. simpl in *. split.
  - intros [= ->]. simpl in Hids. apply Forall_forall. intros call Hin.
    apply registered_false. destruct (registered call) eqn:Hreg; [|reflexivity].
    assert (In call (List.filter registered calls)) as Hf.
    { apply filter_In. split; [|exact Hreg]. apply list_elem_of_In, Hin. }
    apply (in_map call_id) in Hf. rewrite <- Hids in Hf. destruct Hf.
  - intros Hall. f_equal. destruct outs as [|o outs]; [reflexivity|]. exfalso.
    assert (List.filter registered calls = []) as Hnone.
    { clear -Hall. induction Hall as [|call calls Hmiss _ IH]; [reflexivity|].
      simpl. apply registered_false in Hmiss. rewrite Hmiss. exact IH. }
    rewrite Hnone in Hids. discriminate.
Qed.

Lemma run_with_tools_trips (fuel : nat) (prompt : string) (tools : list pyval) (st : state) :
  exists new,
    st_trips (snd (run_with_tools fuel prompt tools st))
    = (st_trips st ++ TripCreate prompt :: new)%list
    /\ Forall round_ok new.
Proof.
  unfold run_with_tools, client_responses_create, bind, log_trip, on_world. simpl.
  destruct (responses_create _ _ _ _) as [[resp|e] w]; simpl.
  - destruct (tool_loop_trips fuel resp
                {| st_world := w; st_trips := (st_trips st ++ [TripCreate prompt])%list |})
      as (new & -> & Hnew).
    exists new. simpl. rewrite <- app_assoc. auto.
  - exists []. auto.
Qed.

(** C1, as the code has it: in every round the batch submitted before the
    next round-trip holds, in the order of the requests, exactly one result
    for each tool-call request whose name is in the registry, under that
    request's id, and nothing else; so, the ids of a round being distinct,
    a registered request has exactly one result under its id and any other
    request has none. A response without tool-call requests ends the loop
    at once, with no further round-trip. *)
Theorem rounds_answer_registered_calls (fuel : nat) (prompt : string)
    (tools : list pyval) (st : state) :
  (exists new,
      st_trips (snd (run_with_tools fuel prompt tools st))
      = (st_trips st ++ TripCreate prompt :: new)%list
      /\ forall answered batch,
           In (TripSubmit answered batch) new ->
           List.map tool_call_id batch
           = List.map call_id (List.filter registered (tool_calls_of answered))
           /\ (NoDup (List.map call_id (tool_calls_of answered)) ->
               forall call,
                 In call (tool_calls_of answered) ->
                 results_for (call_id call) batch = if registered call then 1%nat else 0%nat))
  /\ (forall resp st', tool_calls_of resp = [] ->
        tool_loop (S fuel) resp st' = (Done resp, st')).
Proof.
  split; [|intros resp st'; apply tool_loop_terminal].
  destruct (run_with_tools_trips fuel prompt tools st) as (new & Htrips & Hnew).
  exists new. split; [exact Htrips|]. intros answered batch Hin.
  rewrite Forall_forall in Hnew. apply list_elem_of_In, Hnew in Hin.
  destruct Hin as [_ Hids]. split; [exact Hids|].
  intros Hnodup call Hcall. apply (results_for_call _ _ _ Hids Hnodup Hcall).
Qed.

(** C2: when every requested name misses the registry, the round produces
    no output (and only then), the loop returns the current response as it
    is, without raising and without a further round-trip; and no run of the
    loop ever submits an empty batch. *)
Theorem unknown_tools_end_the_loop (fuel : nat) (resp : response) (st : state) :
  tool_calls_of resp <> [] ->
  Forall (fun call => CUSTOM_TOOLS !! call_name call = None) (tool_calls_of resp) ->
  run_calls (tool_calls_of resp) [] st = (Done [], st)
  /\ tool_loop (S fuel) resp st = (Done resp, st)
  /\ (forall calls s,
        fst (run_calls calls [] s) = Done []
        <-> Forall (fun call => CUSTOM_TOOLS !! call_name call = None) calls)
  /\ (forall n prompt tools s answered batch,
        In (TripSubmit answered batch) (st_trips (snd (run_with_tools n prompt tools s))) ->
        In (TripSubmit answered batch) (st_trips s) \/ batch <> []).
Proof.
  intros Hsome Hall.
  assert (run_calls (tool_calls_of resp) [] st = (Done [], st)) as Hrun.
  { clear Hsome. revert Hall. generalize (tool_calls_of resp). intros calls Hall.
    induction Hall as [|call calls Hmiss _ IH]; [reflexivity|].
    simpl. unfold bind. rewrite (run_call_unregistered _ _ _ Hmiss). exact IH. }
  split; [exact Hrun|]. split; [|split].
  - simpl. destruct (tool_calls_of resp) as [|c cs] eqn:Hcalls; [reflexivity|].
    unfold bind. rewrite Hrun. reflexivity.
  - apply run_calls_empty_iff.
  - intros n prompt tools s answered batch Hin.
    destruct (run_with_tools_trips n prompt tools s) as (new & Htrips & Hnew).
    rewrite Htrips in Hin. apply in_app_or in Hin as [Hold|[Hcreate|Hnew']].
    + left. exact Hold.
    + discriminate.
    + right. rewrite Forall_forall in Hnew. apply list_elem_of_In, Hnew in Hnew'. apply Hnew'.
Qed.

(** C3: when the tool found for a request raises, the exception does not
    leave the loop: the round appends one result under the request's id
    whose output is the JSON text of [{"error": str(e)}]; every request of a
    response whose name is in the registry has a result in the batch, and
    the loop goes on by submitting that batch. *)
Theorem tool_failure_becomes_error_result (fuel : nat) (call : item)
    (tool : pyval -> M pyval) (outs : list tool_output) (st st1 : state) (e : exn) :
  CUSTOM_TOOLS !! call_name call = Some tool ->
  tool (py_or (call_arguments call) (PDict [])) st = (Raised e, st1) ->
  run_call outs call st
    = (Done (outs ++ [{| tool_call_id := call_id call;
                         output := "{" ++ quote "error" ++ ": " ++ quote (str_exn e) ++ "}" |}])%list,
       st1)
  /\ (forall resp s,
        In call (tool_calls_of resp) ->
        exists batch s',
          run_calls (tool_calls_of resp) [] s = (Done batch, s')
          /\ In (call_id call) (List.map tool_call_id batch)
          /\ tool_loop (S fuel) resp s
             = (let! resp' := client_submit_tool_outputs resp batch in tool_loop fuel resp') s').
Proof.
  intros Hreg Hraise. split.
  - unfold run_call. rewrite Hreg. unfold try_except, bind at 1. rewrite Hraise.
    reflexivity.
  - intros resp s Hin.
    destruct (run_calls_ids (tool_calls_of resp) [] s) as (batch & s' & Hrun & Hids & _).
    exists batch, s'. split; [exact Hrun|].
    assert (In (call_id call) (List.map tool_call_id batch)) as Hid.
    { rewrite Hids. simpl. apply in_map, filter_In. split; [exact Hin|].
      apply registered_true. eauto. }
    split; [exact Hid|].
    simpl. destruct (tool_calls_of resp) as [|c cs] eqn:Hcalls; [destruct Hin|].
    unfold bind at 1. rewrite Hrun. destruct batch; [destruct Hid | reflexivity].
Qed.

End LoopClaims.

(** ** The loop on the scripted platform *)

(** C1 fails as stated: a first reply asks for [analyze_csv] (id [a]) and
    for [web_search] (id [b]); the loop submits a batch holding a result
    for [a] only, so the request [b] of that round has no result when the
    next round-trip is issued. *)
Lemma unregistered_call_is_dropped :
  st_trips (snd (run_with_tools 5 "hi" Demo.tools_config
                   (Demo.start [Ok Demo.mixed_round; Ok Demo.final_reply])))
  = [ TripCreate "hi";
      TripSubmit Demo.mixed_round
        [ {| tool_call_id := "a";
             output := "{" ++ quote "error" ++ ": " ++ quote "Provide csv (string) or path." ++ "}" |} ] ]
  /\ ~ Forall answers_every_call
         (st_trips (snd (run_with_tools 5 "hi" Demo.tools_config
                           (Demo.start [Ok Demo.mixed_round; Ok Demo.final_reply])))).
Proof.
  assert (st_trips (snd (run_with_tools 5 "hi" Demo.tools_config
                           (Demo.start [Ok Demo.mixed_round; Ok Demo.final_reply])))
          = [ TripCreate "hi";
              TripSubmit Demo.mixed_round
                [ {| tool_call_id := "a";
                     output := "{" ++ quote "error" ++ ": "
                               ++ quote "Provide csv (string) or path." ++ "}" |} ] ]) as Htrips.
  { vm_compute. reflexivity. }
  split; [exact Htrips|]. rewrite Htrips. intros Hall.
  apply Forall_cons in Hall as [_ Hall]. apply Forall_cons in Hall as [Hround _].
  unfold answers_every_call in Hround. vm_compute in Hround.
  apply Forall_cons in Hround as [_ Hround]. apply Forall_cons in Hround as [Hb _].
  discriminate Hb.
Qed.

Lemma rounds_answer_registered_calls_witness :
  tool_loop 1 Demo.final_reply (Demo.start []) = (Done Demo.final_reply, Demo.start []).
Proof.
  apply (rounds_answer_registered_calls 0 "hi" Demo.tools_config (Demo.start [])).
  reflexivity.
Defined.

Lemma unknown_tools_end_the_loop_witness :
  tool_loop 3 Demo.unknown_round (Demo.start [Ok Demo.final_reply])
  = (Done Demo.unknown_round, Demo.start [Ok Demo.final_reply]).
Proof.
  assert (tool_calls_of Demo.unknown_round <> []) as Hsome.
  { vm_compute. discriminate. }
  assert (Forall (fun call => CUSTOM_TOOLS !! call_name call = None)
                 (tool_calls_of Demo.unknown_round)) as Hmiss.
  { repeat constructor; cbn [call_name Demo.tool_call];
      rewrite CUSTOM_TOOLS_lookup; reflexivity. }
  destruct (unknown_tools_end_the_loop 2 Demo.unknown_round
              (Demo.start [Ok Demo.final_reply]) Hsome Hmiss) as (_ & Hloop & _).
  exact Hloop.
Defined.

Lemma tool_failure_becomes_error_result_witness :
  run_call [] (Demo.tool_call "a" "analyze_csv" PNone) (Demo.start [])
  = (Done [ {| tool_call_id := "a";
               output := "{" ++ quote "error" ++ ": "
                         ++ quote "Provide csv (string) or path." ++ "}" |} ],
     Demo.start []).
Proof.
  assert (CUSTOM_TOOLS !! call_name (Demo.tool_call "a" "analyze_csv" PNone)
          = Some analyze_csv_kwargs) as Hreg.
  { cbn [call_name Demo.tool_call]. rewrite CUSTOM_TOOLS_lookup. reflexivity. }
  assert (analyze_csv_kwargs
            (py_or (call_arguments (Demo.tool_call "a" "analyze_csv" PNone)) (PDict []))
            (Demo.start [])
          = (Raised (Exn "ValueError" "Provide csv (string) or path."), Demo.start []))
    as Hraise.
  { vm_compute. reflexivity. }
  destruct (tool_failure_becomes_error_result 0 (Demo.tool_call "a" "analyze_csv" PNone)
              analyze_csv_kwargs [] (Demo.start []) (Demo.start [])
              (Exn "ValueError" "Provide csv (string) or path.") Hreg Hraise) as [Hcall _].
  exact Hcall.
Defined.

(** ** [analyze_csv]: which argument is read *)

Section AnalyzeCsvClaims.
Context {P : Platform}.

Lemma analyze_csv_unfold (csv path : option string) :
  analyze_csv csv path
  = profile_from (if given path then pd_read_csv_path (default "" path)
                  else if given csv then lift (pd_read_csv (default "" csv))
                  else raise provide_csv_or_path).
Proof. reflexivity. Qed.

Lemma profile_from_raise (e : exn) (st : state) :
  profile_from (raise e) st = (Raised e, st).
Proof. reflexivity. Qed.

Lemma given_nonempty (p : string) : p <> "" -> given (Some p) = true.
Proof. destruct p; [congruence | reflexivity]. Qed.

(** C5, as the code has it: with neither argument the call raises the
    [ValueError] whose message is "Provide csv (string) or path." and does
    nothing else; with both arguments and a path that is not the empty
    string, the file behind [path] is read and [csv] is ignored. *)
Theorem analyze_csv_neither_or_both (csv : option string) (p : string) (st : state) :
  p <> "" ->
  analyze_csv None None st = (Raised (Exn "ValueError" "Provide csv (string) or path."), st)
  /\ analyze_csv csv (Some p) st = profile_from (pd_read_csv_path p) st
  /\ analyze_csv csv (Some p) st = analyze_csv_by_presence csv (Some p) st.
Proof.
  intros Hp. split; [reflexivity|].
  rewrite analyze_csv_unfold, (given_nonempty p Hp). split; reflexivity.
Qed.

(** C10: the choice goes by truth value. An empty [path] next to a
    non-empty [csv] has the inline text parsed, exactly as if [path] were
    absent; an empty [csv] with no [path] raises the same [ValueError] as
    a call without arguments. *)
Theorem analyze_csv_goes_by_truthiness (c : string) (st : state) :
  c <> "" ->
  analyze_csv (Some c) (Some "") st = profile_from (lift (pd_read_csv c)) st
  /\ analyze_csv (Some c) (Some "") st = analyze_csv (Some c) None st
  /\ analyze_csv (Some "") None st = analyze_csv None None st
  /\ analyze_csv (Some "") None st
     = (Raised (Exn "ValueError" "Provide csv (string) or path."), st).
Proof.
  intros Hc. rewrite !analyze_csv_unfold, (given_nonempty c Hc).
  repeat split; reflexivity.
Qed.

(** A run of [analyze_csv] leaves the state as it found it. *)
Lemma analyze_csv_state (csv path : option string) (st : state) :
  snd (analyze_csv csv path st) = st.
Proof.
  unfold analyze_csv, pd_read_csv_path, bind, ask_world.
  destruct (given path); [|destruct (given csv)]; simpl.
  - destruct (read_text _ _) as [text|e]; simpl; [|reflexivity].
    destruct (pd_read_csv text) as [df|e]; simpl; [|reflexivity].
    destruct (pd_describe df); reflexivity.
  - destruct (pd_read_csv _) as [df|e]; simpl; [|reflexivity].
    destruct (pd_describe df); reflexivity.
  - reflexivity.
Qed.

(** The result depends on the state only through the text behind a truthy
    [path]. *)
Lemma analyze_csv_reads_only_path (csv path : option string) (st1 st2 : state) :
  (given path = true ->
   read_text (default "" path) (st_world st1) = read_text (default "" path) (st_world st2)) ->
  fst (analyze_csv csv path st1) = fst (analyze_csv csv path st2).
Proof.
  intros Hsame. unfold analyze_csv, pd_read_csv_path, bind, ask_world.
  destruct (given path); [|destruct (given csv)]; simpl.
  - pose proof (Hsame eq_refl) as Htext.
    destruct (read_text (default "" path) (st_world st1)) as [text|e],
             (read_text (default "" path) (st_world st2)) as [text2|e2];
      try discriminate Htext; injection Htext as <-; simpl; [|reflexivity].
    destruct (pd_read_csv text) as [df|e]; simpl; [|reflexivity].
    destruct (pd_describe df); reflexivity.
  - destruct (pd_read_csv _) as [df|e]; simpl; [|reflexivity].
    destruct (pd_describe df); reflexivity.
  - reflexivity.
Qed.

(** C8: [analyze_csv] changes nothing; its result is a function of its
    arguments and of the text behind [path]; and a second call on the same
    input, right after the first, returns what the first returned. *)
Theorem analyze_csv_is_pure (csv path : option string) (st : state) :
  snd (analyze_csv csv path st) = st
  /\ (forall st',
        (given path = true ->
         read_text (default "" path) (st_world st')
         = read_text (default "" path) (st_world st)) ->
        fst (analyze_csv csv path st') = fst (analyze_csv csv path st))
  /\ (forall p1,
        fst (analyze_csv csv path st) = Done p1 ->
        (let! first := analyze_csv csv path in
         let! second := analyze_csv csv path in
         ret (first, second)) st = (Done (p1, p1), st)).
Proof.
  split; [apply analyze_csv_state|]. split.
  - intros st' Hsame. apply analyze_csv_reads_only_path. exact Hsame.
  - intros p1 Hfirst. unfold bind at 1.
    pose proof (analyze_csv_state csv path st) as Hst.
    destruct (analyze_csv csv path st) as [r st1] eqn:Hrun. simpl in Hfirst, Hst. subst r st1.
    unfold bind. rewrite Hrun. reflexivity.
Qed.

End AnalyzeCsvClaims.

(** ** [analyze_csv] on the scripted platform *)

(** C5 fails as stated: with both arguments provided and [path] the empty
    string, the inline text is profiled; reading the path, which the claim
    promises, would raise. *)
Lemma empty_path_does_not_take_precedence :
  fst (analyze_csv (Some Demo.inline_csv) (Some "") (Demo.start []))
  = fst (analyze_csv (Some Demo.inline_csv) None (Demo.start []))
  /\ (exists p, fst (analyze_csv (Some Demo.inline_csv) (Some "") (Demo.start [])) = Done p
                /\ shape p = (2, 2))
  /\ fst (analyze_csv_by_presence (Some Demo.inline_csv) (Some "") (Demo.start []))
     = Raised (Exn "FileNotFoundError" "No such file or directory")
  /\ analyze_csv (Some Demo.inline_csv) (Some "") (Demo.start [])
     <> analyze_csv_by_presence (Some Demo.inline_csv) (Some "") (Demo.start []).
Proof.
  assert (fst (analyze_csv_by_presence (Some Demo.inline_csv) (Some "") (Demo.start []))
          = Raised (Exn "FileNotFoundError" "No such file or directory")) as Hpath.
  { vm_compute. reflexivity. }
  assert (exists p, fst (analyze_csv (Some Demo.inline_csv) (Some "") (Demo.start [])) = Done p
                    /\ shape p = (2, 2)) as Hcsv.
  { eexists. split; vm_compute; reflexivity. }
  split; [reflexivity|]. split; [exact Hcsv|]. split; [exact Hpath|].
  intros Heq. destruct Hcsv as (p & Hp & _). rewrite Heq, Hpath in Hp. discriminate Hp.
Qed.

Lemma analyze_csv_neither_or_both_witness :
  analyze_csv (Some "ignored") (Some "data.csv") (Demo.start [])
  = profile_from (pd_read_csv_path "data.csv") (Demo.start []).
Proof.
  assert ("data.csv" <> "") as Hp by discriminate.
  destruct (analyze_csv_neither_or_both (Some "ignored") "data.csv" (Demo.start []) Hp)
    as (_ & Hboth & _).
  exact Hboth.
Defined.

Lemma analyze_csv_goes_by_truthiness_witness :
  analyze_csv (Some Demo.inline_csv) (Some "") (Demo.start [])
  = analyze_csv (Some Demo.inline_csv) None (Demo.start []).
Proof.
  assert (Demo.inline_csv <> "") as Hc by discriminate.
  destruct (analyze_csv_goes_by_truthiness Demo.inline_csv (Demo.start []) Hc)
    as (_ & Hsame & _).
  exact Hsame.
Defined.

Lemma analyze_csv_is_pure_witness :
  fst (analyze_csv None (Some "data.csv") (Demo.start [Ok Demo.final_reply]))
  = fst (analyze_csv None (Some "data.csv") (Demo.start [])).
Proof.
  destruct (analyze_csv_is_pure None (Some "data.csv") (Demo.start [])) as (_ & Hread & _).
  apply Hread. intros _. reflexivity.
Defined.

(** ** [analyze_csv]: the profile *)

Section ProfileClaims.
Context {P : Platform}.

(** After [fillna(v)], every entry of [to_dict()] is the cell's value, or
    [v] where the cell held nothing. *)
Lemma to_dict_fillna (v : pyval) (d : DataFrame) :
  df_wf d ->
  to_dict (fillna v d)
  = imap (fun j c =>
            (c, zip (df_index d)
                    (List.map (fun r => default v (mjoin (r !! j))) (df_rows d))))
         (df_columns d).
Proof.
  intros (_ & _ & _ & Hrows). unfold to_dict. cbn [fillna df_columns df_index].
  apply imap_ext. intros j c Hj. f_equal. f_equal.
  unfold df_column. cbn [fillna df_rows]. rewrite List.map_map, List.map_map.
  apply map_ext_in. intros r Hr.
  rewrite Forall_forall in Hrows. apply list_elem_of_In, Hrows in Hr.
  apply lookup_lt_Some in Hj. rewrite <- Hr in Hj.
  apply lookup_lt_is_Some_2 in Hj as [cell Hcell].
  change (List.map ?f r) with (f <$> r). rewrite list_lookup_fmap, Hcell. reflexivity.
Qed.

(** Each record of [to_dict(orient="records")] is keyed by the columns. *)
Lemma to_dict_records_keys (df : DataFrame) (n : nat) :
  df_wf df ->
  Forall (fun record => List.map fst record = df_columns df)
         (to_dict_records (df_head n df)).
Proof.
  intros (_ & _ & _ & Hrows). unfold to_dict_records. cbn [df_head df_columns df_rows].
  apply Forall_forall. intros record Hin.
  apply list_elem_of_In, in_map_iff in Hin as (r & <- & Hr).
  apply (fst_zip (df_columns df)). rewrite length_map.
  rewrite Forall_forall in Hrows.
  assert (r ∈ df_rows df) as Hrow.
  { apply list_elem_of_In, elem_of_take in Hr as (i & Hi & _).
    apply list_elem_of_lookup. eauto. }
  rewrite (Hrows r Hrow). reflexivity.
Qed.

(** C7: whenever [analyze_csv] returns a profile, it is the profile of the
    frame parsed from the text it was given (inline, or behind a truthy
    path): [shape] is (number of data rows, number of columns); [columns]
    has [shape[1]] labels; there is one non-null count and one dtype label
    per column; every entry of [describe] is the statistic, or the empty
    string where there is none; [head] holds the first rows, five at most,
    each as a mapping from the columns. *)
Theorem analyze_csv_profile (csv path : option string) (st st' : state) (p : DataProfile) :
  analyze_csv csv path st = (Done p, st') ->
  exists text df stats,
    (if given path then read_text (default "" path) (st_world st) = Ok text
     else csv = Some text)
    /\ pd_read_csv text = Ok df
    /\ pd_describe df = Ok stats
    /\ shape p = (Z.of_nat (length (df_rows df)), Z.of_nat (length (df_columns df)))
    /\ columns p = df_columns df
    /\ Z.of_nat (length (columns p)) = snd (shape p)
    /\ non_null_counts p
       = imap (fun j c => (c, Z.of_nat (length (List.filter notnull (df_column j df)))))
              (columns p)
    /\ List.map fst (dtypes p) = columns p
    /\ List.map snd (dtypes p) = df_dtypes df
    /\ describe p
       = imap (fun j c =>
                 (c, zip (df_index stats)
                         (List.map (fun r => default (PStr "") (mjoin (r !! j)))
                                   (df_rows stats))))
              (columns p)
    /\ head_records p
       = List.map (fun r => zip (columns p) (List.map cell_value r)) (take 5 (df_rows df))
    /\ (length (head_records p) <= 5)%nat
    /\ Forall (fun record => List.map fst record = columns p) (head_records p).
Proof.
  intros Hrun.
  assert (exists text df stats,
             (if given path then read_text (default "" path) (st_world st) = Ok text
              else csv = Some text)
             /\ pd_read_csv text = Ok df /\ pd_describe df = Ok stats
             /\ p = {| shape := df_shape df;
                       columns := df_columns df;
                       non_null_counts := df_count df;
                       dtypes := df_dtypes_dict df;
                       describe := to_dict (fillna (PStr "") stats);
                       head_records := to_dict_records (df_head 5 df) |})
    as (text & df & stats & Htext & Hdf & Hstats & ->).
  { revert Hrun. unfold analyze_csv, pd_read_csv_path, bind, ask_world.
    destruct (given path) eqn:Hpath; [|destruct (given csv) eqn:Hcsv]; simpl.
    - destruct (read_text _ _) as [text|e]; simpl; [|discriminate].
      destruct (pd_read_csv text) as [df|e] eqn:Hdf; simpl; [|discriminate].
      destruct (pd_describe df) as [stats|e] eqn:Hstats; simpl; [|discriminate].
      intros [= <- _]. exists text, df, stats. auto.
    - destruct csv as [text|]; [|discriminate Hcsv]. simpl.
      destruct (pd_read_csv text) as [df|e] eqn:Hdf; simpl; [|discriminate].
      destruct (pd_describe df) as [stats|e] eqn:Hstats; simpl; [|discriminate].
      intros [= <- _]. exists text, df, stats. auto.
    - discriminate. }
  pose proof (pd_read_csv_wf _ _ Hdf) as Hwf.
  destruct (pd_describe_wf _ _ Hwf Hstats) as [Hwf_stats Hcols].
  exists text, df, stats. cbn [shape columns non_null_counts dtypes describe head_records].
  split; [exact Htext|]. split; [exact Hdf|]. split; [exact Hstats|].
  split; [reflexivity|]. split; [reflexivity|]. split; [reflexivity|].
  split; [reflexivity|].
  destruct Hwf as (Hnodup & Hdtypes & Hindex & Hrows).
  split; [apply (fst_zip (df_columns df)); rewrite Hdtypes; reflexivity|].
  split; [apply (snd_zip (df_columns df)); rewrite Hdtypes; reflexivity|].
  split; [rewrite (to_dict_fillna _ _ Hwf_stats), Hcols; reflexivity|].
  split; [reflexivity|].
  split.
  - unfold to_dict_records. cbn [df_head df_rows]. rewrite length_map, length_take. lia.
  - apply (to_dict_records_keys df 5). repeat split; assumption.
Qed.

End ProfileClaims.

(** The scenario of the specification: two data rows under a header. *)
Lemma analyze_csv_profile_witness :
  exists p,
    fst (analyze_csv (Some Demo.inline_csv) None (Demo.start [])) = Done p
    /\ shape p = (2, 2)
    /\ Z.of_nat (length (columns p)) = snd (shape p)
    /\ (length (head_records p) <= 5)%nat.
Proof.
  assert (exists p, analyze_csv (Some Demo.inline_csv) None (Demo.start [])
                    = (Done p, Demo.start []) /\ shape p = (2, 2)) as (p & Hrun & Hshape).
  { eexists. split; vm_compute; reflexivity. }
  exists p. rewrite Hrun. split; [reflexivity|]. split; [exact Hshape|].
  destruct (analyze_csv_profile (Some Demo.inline_csv) None (Demo.start []) (Demo.start []) p
              Hrun)
    as (text & df & stats & _ & _ & _ & _ & _ & Hcols & _ & _ & _ & _ & _ & Hhead & _).
  split; [exact Hcols | exact Hhead].
Defined.

(** ** [fetch_url] *)

Section FetchClaims.
Context {P : Platform}.

(** A loop that appends [f x] for each [x] builds [map f]. *)
Lemma foldl_append_map {A B} (f : A -> B) (l : list A) (acc : list B) :
  foldl (fun (rows : list B) x => (rows ++ [f x])%list) acc l = (acc ++ List.map f l)%list.
Proof.
  revert acc. induction l as [|x l IH]; intros acc; simpl.
  - rewrite app_nil_r. reflexivity.
  - rewrite IH, <- app_assoc. reflexivity.
Qed.



End FetchClaims.



(** ** [extract_text] *)

Lemma attr_text_text_or_value (text value : pyattr) :
  attr_text (text_or_value text value) = found_text text value.
Proof. destruct text as [| |[|c s]], value as [| |v]; reflexivity. Qed.

Lemma attr_truthy_text (a : pyattr) : attr_truthy a = str_nonempty (attr_text a).
Proof. destruct a; reflexivity. Qed.

Lemma filter_truthy_texts (chunks : list pyattr) :
  List.map attr_text (List.filter attr_truthy chunks)
  = List.filter str_nonempty (List.map attr_text chunks).
Proof.
  induction chunks as [|a chunks IH]; [reflexivity|]. simpl.
  rewrite attr_truthy_text. destruct (str_nonempty (attr_text a)); simpl; rewrite IH; reflexivity.
Qed.

Lemma message_type_is_not_text (a : pyattr) :
  attr_is a "message" = true -> attr_in a ["output_text"; "text"] = false.
Proof.
  unfold attr_in, attr_is. destruct (getattr_str a) as [| |s]; try discriminate.
  intros Hmsg%String.eqb_eq. subst s. reflexivity.
Qed.

Lemma collect_blocks_texts (blocks : list block) (chunks : list pyattr) :
  List.map attr_text (foldl collect_block chunks blocks)
  = (List.map attr_text chunks
     ++ List.map (fun b => found_text (block_text b) (block_value b))
          (List.filter (fun b => attr_in (block_type b) ["output_text"; "text"]) blocks))%list.
Proof.
  revert chunks. induction blocks as [|b blocks IH]; intros chunks.
  - simpl. rewrite app_nil_r. reflexivity.
  - cbn [foldl List.filter]. rewrite IH. unfold collect_block.
    destruct (attr_in (block_type b) ["output_text"; "text"]); [|reflexivity].
    rewrite List.map_app, <- app_assoc. cbn [List.map app].
    rewrite attr_text_text_or_value. reflexivity.
Qed.

Lemma collect_item_texts (it : item) (chunks : list pyattr) :
  List.map attr_text (collect_item chunks it)
  = (List.map attr_text chunks ++ texts_of_item it)%list.
Proof.
  unfold collect_item, texts_of_item.
  destruct (attr_is (item_type it) "message") eqn:Hmsg; cbn [andb].
  - destruct (item_content it) as [[|b bs]|]; cbn [content_truthy default].
    + rewrite (message_type_is_not_text _ Hmsg), app_nil_r. reflexivity.
    + apply collect_blocks_texts.
    + rewrite (message_type_is_not_text _ Hmsg), app_nil_r. reflexivity.
  - destruct (attr_in (item_type it) ["output_text"; "text"]).
    + rewrite List.map_app. cbn [List.map]. rewrite attr_text_text_or_value. reflexivity.
    + rewrite app_nil_r. reflexivity.
Qed.

Lemma collect_items_texts (items : list item) (chunks : list pyattr) :
  List.map attr_text (foldl collect_item chunks items)
  = (List.map attr_text chunks ++ flat_map texts_of_item items)%list.
Proof.
  revert chunks. induction items as [|it items IH]; intros chunks.
  - simpl. rewrite app_nil_r. reflexivity.
  - cbn [foldl flat_map]. rewrite IH, collect_item_texts, <- app_assoc. reflexivity.
Qed.

(** C6: [extract_text] is the newline-joined sequence, in document order,
    of the non-empty texts of the response: those of the text blocks of
    message items and those of bare text items, each taken from [text] or
    else from [value]; it is the empty string when there is none. *)
Theorem extract_text_joins_found_texts (resp : response) :
  extract_text resp
  = join nl (List.filter str_nonempty
               (flat_map texts_of_item (default [] (resp_output resp))))
  /\ (Forall (fun t => t = "") (flat_map texts_of_item (default [] (resp_output resp))) ->
      extract_text resp = "").
Proof.
  assert (extract_text resp
          = join nl (List.filter str_nonempty
                       (flat_map texts_of_item (default [] (resp_output resp))))) as Heq.
  { unfold extract_text. rewrite filter_truthy_texts, collect_items_texts. reflexivity. }
  split; [exact Heq|]. intros Hnone. rewrite Heq. clear Heq.
  induction Hnone as [|t ts -> _ IH]; [reflexivity | exact IH].
Qed.

Lemma extract_text_joins_found_texts_witness :
  extract_text (Demo.reply "r" [Demo.tool_call "a" "fetch_url" PNone;
                                Demo.bare "text" (IsStr "") IsNone;
                                Demo.message [Demo.text_block "refusal" (IsStr "no") Missing]])
  = "".
Proof.
  apply extract_text_joins_found_texts. repeat constructor.
Defined.

(** ** [run_endpoint] *)

Section FlaskClaims.
Context {P : Platform}.

(** On such a body the handler answers in JSON with the [ok] field:
    status 400 without a round-trip when the prompt is missing or blank,
    status 200 with the text, or status 500 with the message of the
    exception that left the loop. *)
Lemma method_strip_prompt (v : pyval) (st : state) :
  prompt_ok v -> exists s, method_strip (py_or v (PStr "")) st = (Done s, st).
Proof.
  intros [Hfalsy|[s ->]]; unfold py_or.
  - rewrite Hfalsy. simpl. eauto.
  - destruct (truthy (PStr s)); simpl; eauto.
Qed.

Lemma method_get_prompt (request : flask_request) (st : state) :
  body_ok request ->
  exists got,
    method_get (py_or (default PNone (request_json request)) (PDict [])) "prompt" st
    = (Done got, st)
    /\ prompt_ok got.
Proof.
  assert (prompt_ok PNone) as Hnone by (left; reflexivity).
  unfold body_ok. destruct (request_json request) as [v|]; simpl.
  - intros [Hfalsy|(d & -> & Hd)]; unfold py_or.
    + rewrite Hfalsy. simpl. eauto.
    + destruct (truthy (PDict d)); simpl; eauto.
  - intros _. eauto.
Qed.

Lemma run_endpoint_replies_json (fuel : nat) (request : flask_request) (st : state) :
  body_ok request ->
  match run_endpoint fuel request st with
  | (Done reply, st') =>
      (reply_status reply = 400 /\ json_ok reply false "error" /\ st' = st)
      \/ (reply_status reply = 200 /\ json_ok reply true "text")
      \/ (reply_status reply = 500 /\ json_ok reply false "error")
  | (Raised _, _) => False
  | (OutOfFuel, _) => True
  end.
Proof.
  intros Hbody. unfold run_endpoint. cbv zeta.
  destruct (method_get_prompt request st Hbody) as (got & Hgot & Hok).
  destruct (method_strip_prompt got st Hok) as (prompt & Hprompt).
  unfold bind at 1. rewrite Hgot. unfold bind at 1. rewrite Hprompt.
  destruct (str_nonempty prompt); cbn [negb].
  - unfold try_except, bind.
    destruct (run_with_tools fuel prompt _ st) as [[resp|e|] st']; simpl.
    + right; left. split; [reflexivity|]. eexists. reflexivity.
    + right; right. split; [reflexivity|]. eexists. reflexivity.
    + exact I.
  - left. split; [reflexivity|]. split; [eexists; reflexivity | reflexivity].
Qed.

(** C9 on a request the handler does not expect: a prompt that is a
    number, or a body that is a JSON array, makes [run_endpoint] raise
    [AttributeError] before its [try]; no JSON reply is produced. *)
Theorem run_endpoint_raises_on_non_string_prompt (fuel : nat) (st : state) :
  run_endpoint fuel {| request_json := Some (PDict [("prompt", PInt 5)]) |} st
  = (Raised (Exn "AttributeError" "'int' object has no attribute 'strip'"), st)
  /\ run_endpoint fuel {| request_json := Some (PList [PInt 1]) |} st
     = (Raised (Exn "AttributeError" "'list' object has no attribute 'get'"), st).
Proof. split; reflexivity. Qed.

End FlaskClaims.

(** The handler on the scripted platform: a blank prompt, a prompt answered
    at once, and a prompt whose round-trip fails. *)
Lemma run_endpoint_scenarios :
  fst (run_endpoint 5 {| request_json := Some (PDict [("prompt", PStr "   ")]) |}
         (Demo.start [Ok Demo.final_reply]))
  = Done (jsonify (PDict [("ok", PBool false); ("error", PStr "Missing prompt")]) 400)
  /\ fst (run_endpoint 5 {| request_json := Some (PDict [("prompt", PStr "hi")]) |}
            (Demo.start [Ok Demo.final_reply]))
     = Done (jsonify (PDict [("ok", PBool true); ("text", PStr "done")]) 200)
  /\ fst (run_endpoint 5 {| request_json := Some (PDict [("prompt", PStr "hi")]) |}
            (Demo.start []))
     = Done (jsonify (PDict [("ok", PBool false); ("error", PStr "Connection error.")]) 500).
Proof. repeat split; vm_compute; reflexivity. Qed.

(** * Further properties *)

Import Scenarios.

(** ** The loop: failures, the returned response, the rounds *)

Section LoopExtras.
Context {P : Platform}.

Lemma tool_loop_step (fuel : nat) (resp : response) (st : state) :
  tool_loop (S fuel) resp st
  = match tool_calls_of resp with
    | [] => (Done resp, st)
    | _ :: _ =>
        match run_calls (tool_calls_of resp) [] st with
        | (Done [], st1) => (Done resp, st1)
        | (Done (o :: outs), st1) =>
            (let! resp' := client_submit_tool_outputs resp (o :: outs) in
             tool_loop fuel resp') st1
        | (Raised e, st1) => (Raised e, st1)
        | (OutOfFuel, st1) => (OutOfFuel, st1)
        end
    end.
Proof.
  simpl. destruct (tool_calls_of resp) as [|c cs]; [reflexivity|].
  unfold bind at 1. destruct (run_calls (c :: cs) [] st) as [[[|o outs]|e|] st1]; reflexivity.
Qed.

(** X1: a failure of the endpoint is not caught by the loop. When the first
    call raises, [run_with_tools] raises the same exception after that one
    round-trip; when a submission raises, the loop raises it too, unlike
    an exception of a tool. *)
Theorem endpoint_failures_leave_the_loop (fuel : nat) (prompt : string)
    (tools : list pyval) (st : state) (e : exn) (w : world) :
  (responses_create "gpt-4.1"
     (PList [PDict [("role", PStr "user"); ("content", PStr prompt)]]) tools (st_world st)
   = (Raise e, w) ->
   run_with_tools fuel prompt tools st
   = (Raised e, {| st_world := w; st_trips := (st_trips st ++ [TripCreate prompt])%list |}))
  /\ (forall resp batch st1,
        run_calls (tool_calls_of resp) [] st = (Done batch, st1) ->
        batch <> [] ->
        responses_submit_tool_outputs (resp_id resp) batch (st_world st1) = (Raise e, w) ->
        tool_loop (S fuel) resp st
        = (Raised e, {| st_world := w;
                        st_trips := (st_trips st1 ++ [TripSubmit resp batch])%list |})).
Proof.
  split.
  - intros Hcreate. unfold run_with_tools, client_responses_create, bind, log_trip, on_world.
    simpl. rewrite Hcreate. reflexivity.
  - intros resp batch st1 Hrun Hsome Hsubmit. rewrite tool_loop_step, Hrun.
    destruct (tool_calls_of resp) as [|c cs] eqn:Hcalls.
    { simpl in Hrun. injection Hrun as <- <-. contradiction. }
    destruct batch as [|o outs]; [contradiction|].
    unfold client_submit_tool_outputs, bind, log_trip, on_world. simpl.
    rewrite Hsubmit. reflexivity.
Qed.

(** X2: the response [run_with_tools] returns holds no tool-call request
    for a registered tool: the loop only stops on a response it has
    nothing to answer. *)
Theorem returned_response_has_no_registered_call (fuel : nat) (prompt : string)
    (tools : list pyval) (st st' : state) (final : response) :
  run_with_tools fuel prompt tools st = (Done final, st') ->
  List.filter registered (tool_calls_of final) = [].
Proof.
  unfold run_with_tools, bind.
  destruct (client_responses_create _ _ _ st) as [[resp|e|] st0]; try discriminate.
  revert resp st0. induction fuel as [|fuel IH]; intros resp st0; [discriminate|].
  rewrite tool_loop_step.
  destruct (tool_calls_of resp) as [|c cs] eqn:Hcalls.
  { intros [= <- _]. rewrite Hcalls. reflexivity. }
  destruct (run_calls_ids (c :: cs) [] st0) as (outs & st1 & -> & Hids & _).
  destruct outs as [|o outs].
  - intros [= <- _]. rewrite Hcalls.
    destruct (List.filter registered (c :: cs)); [reflexivity | simpl in Hids; discriminate Hids].
  - unfold bind. destruct (client_submit_tool_outputs _ _ st1) as [[resp'|e|] st2];
      try discriminate. apply IH.
Qed.

(** The bound only cuts runs short: once a run ends within [fuel]
    iterations, every larger bound gives the same result and state. *)
Lemma tool_loop_within_bound (fuel extra : nat) (resp : response) (st : state) :
  fst (tool_loop fuel resp st) <> OutOfFuel ->
  tool_loop (fuel + extra) resp st = tool_loop fuel resp st.
Proof.
  revert resp st. induction fuel as [|fuel IH]; intros resp st Hdone.
  { simpl in Hdone. contradiction. }
  change (S fuel + extra)%nat with (S (fuel + extra)).
  rewrite !tool_loop_step. rewrite tool_loop_step in Hdone.
  destruct (tool_calls_of resp) as [|c cs]; [reflexivity|].
  destruct (run_calls (c :: cs) [] st) as [[[|o outs]|e|] st1]; try reflexivity.
  unfold bind in *. destruct (client_submit_tool_outputs _ _ st1) as [[resp'|e|] st2];
    try reflexivity. apply IH. exact Hdone.
Qed.

(** X3: [run_with_tools] puts no limit on the number of rounds. Against an
    endpoint that answers every submission with a response asking for a
    registered tool again, the [while True] loop has not ended after any
    number [n] of iterations, and has by then issued [n] submissions, one
    per iteration. *)
Theorem loop_has_no_round_limit (insists : response -> Prop) (n : nat)
    (resp : response) (st : state) :
  (forall r, insists r -> List.filter registered (tool_calls_of r) <> []) ->
  (forall r batch w,
     insists r ->
     exists r' w',
       responses_submit_tool_outputs (resp_id r) batch w = (Ok r', w') /\ insists r') ->
  insists resp ->
  exists st' new,
    tool_loop n resp st = (OutOfFuel, st')
    /\ st_trips st' = (st_trips st ++ new)%list
    /\ length new = n
    /\ Forall is_submit new.
Proof.
  intros Hasks Hanswers. revert resp st.
  induction n as [|n IH]; intros resp st Hresp.
  { exists st, []. rewrite app_nil_r. repeat split. constructor. }
  rewrite tool_loop_step. pose proof (Hasks resp Hresp) as Hreg.
  destruct (tool_calls_of resp) as [|c cs] eqn:Hcalls; [contradiction|].
  destruct (run_calls_ids (c :: cs) [] st) as (outs & st1 & -> & Hids & Htrips).
  destruct outs as [|o outs].
  { destruct (List.filter registered (c :: cs)); [congruence | simpl in Hids; discriminate Hids]. }
  unfold client_submit_tool_outputs, bind, log_trip, on_world. simpl.
  destruct (Hanswers resp (o :: outs) (st_world st1) Hresp) as (r' & w' & -> & Hnext).
  simpl.
  destruct (IH r' {| st_world := w';
                     st_trips := (st_trips st1 ++ [TripSubmit resp (o :: outs)])%list |} Hnext)
    as (st' & new & -> & Hnew & Hlen & Hsub).
  exists st', (TripSubmit resp (o :: outs) :: new). split; [reflexivity|].
  split; [rewrite Hnew; simpl; rewrite Htrips, <- app_assoc; reflexivity|].
  split; [simpl; rewrite Hlen; reflexivity|]. constructor; [exact I | exact Hsub].
Qed.

(** X4: when a registered tool returns, the request gets one output under
    its id: the JSON text of the result, or, when [json.dumps] refuses the
    result, the error payload carrying that refusal. *)
Theorem tool_result_becomes_output (call : item) (tool : pyval -> M pyval)
    (outs : list tool_output) (st st1 : state) (result : pyval) :
  CUSTOM_TOOLS !! call_name call = Some tool ->
  tool (py_or (call_arguments call) (PDict [])) st = (Done result, st1) ->
  run_call outs call st
  = (Done (outs ++ [{| tool_call_id := call_id call;
                       output := match json_dumps result with
                                 | Ok text => text
                                 | Raise e => error_output e
                                 end |}])%list, st1).
Proof.
  intros Hreg Hrun. unfold run_call. rewrite Hreg. unfold try_except, bind at 1.
  rewrite Hrun. unfold bind. destruct (json_dumps result) as [text|e]; reflexivity.
Qed.

End LoopExtras.

(** ** Tool calls: serialisation, schemas, arguments *)

Lemma serializable_list (l : list pyval) :
  Forall serializable l -> serializable (PList l).
Proof.
  intros Hall. unfold serializable. cbn [json_dumps].
  match goal with
  | |- exists text, match ?F l with _ => _ end = _ =>
      assert (exists ss, F l = Ok ss) as [ss Hss]
  end.
  { induction Hall as [|v l [text Hv] _ [ss IH]]; [eexists; reflexivity|].
    rewrite Hv, IH. eexists; reflexivity. }
  rewrite Hss. eexists; reflexivity.
Qed.

Lemma serializable_dict (d : list (string * pyval)) :
  Forall (fun kv => serializable (snd kv)) d -> serializable (PDict d).
Proof.
  intros Hall. unfold serializable. cbn [json_dumps].
  match goal with
  | |- exists text, match ?F d with _ => _ end = _ =>
      assert (exists ss, F d = Ok ss) as [ss Hss]
  end.
  { induction Hall as [|[k v] d [text Hv] _ [ss IH]]; [eexists; reflexivity|].
    simpl in Hv. rewrite Hv, IH. eexists; reflexivity. }
  rewrite Hss. eexists; reflexivity.
Qed.

Lemma summary_dict_serializable (s : PageSummary) : serializable (summary_dict s).
Proof.
  assert (forall l : list string, serializable (PList (List.map PStr l))) as Hstrs.
  { intros l. apply serializable_list. apply Forall_forall. intros v Hv.
    apply list_elem_of_In, in_map_iff in Hv as (x & <- & _). eexists; reflexivity. }
  unfold summary_dict. apply serializable_dict. repeat constructor; simpl.
  - eexists; reflexivity.
  - apply Hstrs.
  - destruct (table_preview s) as [rows|]; [|eexists; reflexivity].
    apply serializable_list. apply Forall_forall. intros v Hv.
    apply list_elem_of_In, in_map_iff in Hv as (x & <- & _). apply Hstrs.
  - eexists; reflexivity.
Qed.

Section ToolCallExtras.
Context {P : Platform}.

Lemma declared_properties_cases (name : string) (props : list string) :
  declared_properties name = Some props ->
  (name = "fetch_url" /\ props = ["url"; "take_table"])
  \/ (name = "analyze_csv" /\ props = ["csv"; "path"]).
Proof.
  unfold declared_properties, FUNCTION_SCHEMAS. cbn [List.find schema_name dict_get String.eqb Ascii.eqb Bool.eqb].
  repeat case_bool_decide; cbn [option_map schema_properties dict_get]; simpl.
  all: intros [= <-]; try (left; split; [congruence | reflexivity]);
       try (right; split; [congruence | reflexivity]).
Qed.

(** X5: [FUNCTION_SCHEMAS] and [CUSTOM_TOOLS] name the same tools: a name
    is in the registry exactly when a function schema declares it. *)
Theorem schemas_and_registry_agree (name : string) :
  is_Some (CUSTOM_TOOLS !! name) <-> is_Some (declared_properties name).
Proof.
  rewrite CUSTOM_TOOLS_lookup.
  unfold declared_properties, FUNCTION_SCHEMAS. cbn [List.find schema_name dict_get String.eqb Ascii.eqb Bool.eqb].
  repeat case_bool_decide; repeat case_decide; subst; simpl;
    try congruence; split; intros [x Hx]; try discriminate; eauto.
Qed.

Lemma check_keywords_unexpected (fname : string) (allowed : list string)
    (kw : list (string * pyval)) (k : string) (v : pyval) :
  In (k, v) kw -> ~ In k allowed ->
  exists e, check_keywords fname allowed kw = Raise e /\ exc_class e = "TypeError".
Proof.
  intros Hin Hnot. unfold check_keywords.
  destruct (List.find _ kw) as [kv|] eqn:Hfind; [eexists; split; reflexivity|].
  exfalso. apply (find_none _ _ Hfind) in Hin. simpl in Hin.
  apply Bool.negb_false_iff, existsb_exists in Hin as (a & Ha & Heq%String.eqb_eq).
  subst a. contradiction.
Qed.

Lemma check_keywords_expected (fname : string) (allowed : list string)
    (kw : list (string * pyval)) :
  Forall (fun kv => In (fst kv) allowed) kw -> check_keywords fname allowed kw = Ok tt.
Proof.
  intros Hall. unfold check_keywords.
  destruct (List.find _ kw) as [kv|] eqn:Hfind; [|reflexivity].
  exfalso. apply find_some in Hfind as [Hin Hbad].
  rewrite Forall_forall in Hall. apply list_elem_of_In, Hall in Hin.
  apply Bool.negb_true_iff in Hbad.
  assert (existsb (String.eqb (fst kv)) allowed = true) as Hgood.
  { apply existsb_exists. exists (fst kv). split; [exact Hin | apply String.eqb_refl]. }
  congruence.
Qed.

(** X6: a request carrying an argument that the schema of its tool does not
    declare is answered with the error payload of a [TypeError]; the tool
    does not run, and the state is left as it was. *)
Theorem undeclared_argument_is_refused (call : item) (props : list string)
    (kw : list (string * pyval)) (k : string) (v : pyval)
    (outs : list tool_output) (st : state) :
  declared_properties (call_name call) = Some props ->
  call_arguments call = PDict kw ->
  In (k, v) kw -> ~ In k props ->
  exists e,
    exc_class e = "TypeError"
    /\ run_call outs call st
       = (Done (outs ++ [{| tool_call_id := call_id call; output := error_output e |}])%list,
          st).
Proof.
  intros Hprops Hargs Hin Hnot.
  assert (py_or (call_arguments call) (PDict []) = PDict kw) as Hkw.
  { rewrite Hargs. destruct kw; [destruct Hin | reflexivity]. }
  assert (CUSTOM_TOOLS !! "fetch_url" = Some fetch_url_kwargs) as Hfetch.
  { rewrite CUSTOM_TOOLS_lookup. reflexivity. }
  assert (CUSTOM_TOOLS !! "analyze_csv" = Some analyze_csv_kwargs) as Hcsv.
  { rewrite CUSTOM_TOOLS_lookup. reflexivity. }
  unfold run_call. rewrite Hkw.
  apply declared_properties_cases in Hprops as [[-> ->]|[-> ->]].
  - destruct (check_keywords_unexpected "fetch_url" _ kw k v Hin Hnot) as (e & He & Hclass).
    exists e. split; [exact Hclass|]. rewrite Hfetch.
    unfold try_except, fetch_url_kwargs, bind at 1. rewrite He. reflexivity.
  - destruct (check_keywords_unexpected "analyze_csv" _ kw k v Hin Hnot) as (e & He & Hclass).
    exists e. split; [exact Hclass|]. rewrite Hcsv.
    unfold try_except, analyze_csv_kwargs, bind at 1. rewrite He. reflexivity.
Qed.

End ToolCallExtras.

Section FetchCallExtras.
Context {P : Platform}.

Lemma registry_fetch_url : CUSTOM_TOOLS !! "fetch_url" = Some fetch_url_kwargs.
Proof. rewrite CUSTOM_TOOLS_lookup. reflexivity. Qed.

Lemma registry_analyze_csv : CUSTOM_TOOLS !! "analyze_csv" = Some analyze_csv_kwargs.
Proof. rewrite CUSTOM_TOOLS_lookup. reflexivity. Qed.

(** A [fetch_url] call with a [url] and no other keyword than [take_table]
    runs [fetch_url] and turns what it does into one output. *)
Lemma fetch_url_call (call : item) (kw : list (string * pyval)) (url : pyval)
    (outs : list tool_output) (st : state) :
  call_name call = "fetch_url" ->
  call_arguments call = PDict kw ->
  Forall (fun kv => In (fst kv) ["url"; "take_table"]) kw ->
  dict_get "url" kw = Some url ->
  run_call outs call st
  = match fetch_url url (take_table_of kw) st with
    | (Done s, st1) =>
        (Done (outs ++ [{| tool_call_id := call_id call;
                           output := match json_dumps (summary_dict s) with
                                     | Ok text => text
                                     | Raise e => error_output e
                                     end |}])%list, st1)
    | (Raised e, st1) =>
        (Done (outs ++ [{| tool_call_id := call_id call; output := error_output e |}])%list, st1)
    | (OutOfFuel, st1) => (OutOfFuel, st1)
    end.
Proof.
  intros Hname Hargs Hkeys Hurl.
  assert (py_or (call_arguments call) (PDict []) = PDict kw) as Hkw.
  { rewrite Hargs. destruct kw; [discriminate Hurl | reflexivity]. }
  unfold run_call. rewrite Hkw, Hname, registry_fetch_url.
  unfold try_except, fetch_url_kwargs, bind at 1, bind at 1.
  rewrite (check_keywords_expected _ _ _ Hkeys), Hurl. cbn [lift ret].
  fold (take_table_of kw). unfold bind at 1.
  destruct (fetch_url url (take_table_of kw) st) as [[s|e|] st1]; cbn [ret].
  - unfold bind. destruct (json_dumps (summary_dict s)); reflexivity.
  - reflexivity.
  - reflexivity.
Qed.

(** X7: the summary [fetch_url] returns always serialises, so a [fetch_url]
    request whose fetch succeeds is answered with the JSON text of the
    summary, never with an error payload. *)
Theorem fetched_page_becomes_json_output (call : item) (kw : list (string * pyval))
    (url : pyval) (outs : list tool_output) (st st1 : state) (s : PageSummary) :
  call_name call = "fetch_url" ->
  call_arguments call = PDict kw ->
  Forall (fun kv => In (fst kv) ["url"; "take_table"]) kw ->
  dict_get "url" kw = Some url ->
  fetch_url url (take_table_of kw) st = (Done s, st1) ->
  exists text,
    json_dumps (summary_dict s) = Ok text
    /\ run_call outs call st
       = (Done (outs ++ [{| tool_call_id := call_id call; output := text |}])%list, st1).
Proof.
  intros Hname Hargs Hkeys Hurl Hrun.
  destruct (summary_dict_serializable s) as [text Htext]. exists text. split; [exact Htext|].
  rewrite (fetch_url_call call kw url outs st Hname Hargs Hkeys Hurl), Hrun, Htext.
  reflexivity.
Qed.

(** X8: a [fetch_url] request whose GET raises, or comes back with a 4xx or
    5xx status, or with a body that the parser rejects, is answered with
    the error payload of that exception; the loop goes on. *)
Theorem failed_fetch_becomes_error_output (call : item) (kw : list (string * pyval))
    (url : pyval) (outs : list tool_output) (st : state)
    (r : result http_response) (w : world) (e : exn) :
  call_name call = "fetch_url" ->
  call_arguments call = PDict kw ->
  Forall (fun kv => In (fst kv) ["url"; "take_table"]) kw ->
  dict_get "url" kw = Some url ->
  requests_get url 20 [("User-Agent", "agent/0.1")] (st_world st) = (r, w) ->
  r = Raise e
  \/ (exists resp, r = Ok resp /\ raise_for_status resp = Raise e)
  \/ (exists resp, r = Ok resp /\ raise_for_status resp = Ok tt
                   /\ BeautifulSoup (resp_text resp) = Raise e) ->
  run_call outs call st
  = (Done (outs ++ [{| tool_call_id := call_id call; output := error_output e |}])%list,
     {| st_world := w; st_trips := st_trips st |}).
Proof.
  intros Hname Hargs Hkeys Hurl Hget Hfail.
  rewrite (fetch_url_call call kw url outs st Hname Hargs Hkeys Hurl).
  unfold fetch_url, bind at 1, on_world. rewrite Hget.
  destruct Hfail as [->|[(resp & -> & Hstatus)|(resp & -> & Hstatus & Hparse)]];
    [reflexivity| |].
  - cbn [lift ret]. unfold bind at 1. rewrite Hstatus. reflexivity.
  - cbn [lift ret]. unfold bind at 1. rewrite Hstatus. cbn [lift ret].
    unfold bind at 1. rewrite Hparse. reflexivity.
Qed.

(** X9: a request for a registered tool whose [arguments] are falsy ([None]
    or an empty object) calls the tool with no argument: [analyze_csv]
    answers with its [ValueError], [fetch_url] with the [TypeError] for the
    missing [url]; nothing is fetched or read. *)
Theorem call_without_arguments (call : item) (outs : list tool_output) (st : state) :
  truthy (call_arguments call) = false ->
  (call_name call = "analyze_csv" ->
   run_call outs call st
   = (Done (outs ++ [{| tool_call_id := call_id call;
                        output := error_output (Exn "ValueError" "Provide csv (string) or path.") |}])%list,
      st))
  /\ (call_name call = "fetch_url" ->
      run_call outs call st
      = (Done (outs ++ [{| tool_call_id := call_id call;
                           output := error_output
                             (Exn "TypeError"
                                  "fetch_url() missing 1 required positional argument: 'url'") |}])%list,
         st)).
Proof.
  intros Hfalsy.
  assert (py_or (call_arguments call) (PDict []) = PDict []) as Hkw.
  { unfold py_or. rewrite Hfalsy. reflexivity. }
  split; intros Hname; unfold run_call; rewrite Hkw, Hname.
  - rewrite registry_analyze_csv. reflexivity.
  - rewrite registry_fetch_url. reflexivity.
Qed.

(** X21: a request for a registered tool whose [arguments] are truthy but
    no mapping (a text, a number, a list) never reaches the tool: unpacking
    them raises a [TypeError], and the request is answered with its error
    payload; nothing is fetched or read. *)
Theorem non_mapping_arguments_are_refused (call : item) (outs : list tool_output)
    (st : state) :
  registered call = true ->
  truthy (call_arguments call) = true ->
  (forall kw, call_arguments call <> PDict kw) ->
  run_call outs call st
  = (Done (outs ++ [{| tool_call_id := call_id call;
                       output := error_output
                         (Exn "TypeError"
                              (tools_module ++ "." ++ call_name call
                               ++ "() argument after ** must be a mapping, not "
                               ++ type_name (call_arguments call))) |}])%list,
     st).
Proof.
  intros Hreg Htruthy Hother.
  assert (py_or (call_arguments call) (PDict []) = call_arguments call) as Hargs.
  { unfold py_or. rewrite Htruthy. reflexivity. }
  apply registered_true in Hreg as [tool Htool].
  unfold run_call. rewrite Hargs, Htool. revert Htool. rewrite CUSTOM_TOOLS_lookup.
  destruct (decide (call_name call = "fetch_url")) as [->|_];
    [|destruct (decide (call_name call = "analyze_csv")) as [->|_]]; intros [= <-].
  - destruct (call_arguments call) as [| | | | | |kw|];
      try reflexivity. destruct (Hother kw eq_refl).
  - destruct (call_arguments call) as [| | | | | |kw|];
      try reflexivity. destruct (Hother kw eq_refl).
Qed.

End FetchCallExtras.

(** ** Whitespace *)

Lemma lstrip_start (s : string) : starts_with_space (lstrip s) = false.
Proof.
  induction s as [|c s IH]; [reflexivity|]. simpl.
  destruct (py_isspace c) eqn:Hc; [exact IH | simpl; exact Hc].
Qed.

Lemma rstrip_end (s : string) : ends_with_space (rstrip s) = false.
Proof.
  induction s as [|c s IH]; [reflexivity|]. simpl.
  destruct (rstrip s) as [|c' r] eqn:Hr.
  - destruct (py_isspace c) eqn:Hc; [reflexivity | simpl; exact Hc].
  - exact IH.
Qed.

Lemma rstrip_start (s : string) :
  starts_with_space s = false -> starts_with_space (rstrip s) = false.
Proof.
  destruct s as [|c s]; [reflexivity|]. simpl. intros Hc.
  destruct (rstrip s); [rewrite Hc|]; simpl; exact Hc.
Qed.

Lemma strip_tidy (s : string) : tidy (strip s).
Proof.
  unfold strip. split; [apply rstrip_start, lstrip_start | apply rstrip_end].
Qed.

Lemma tidy_fixed (s : string) : tidy s -> strip s = s.
Proof.
  intros [Hstart Hend]. unfold strip.
  assert (lstrip s = s) as ->.
  { destruct s as [|c s]; [reflexivity|]. simpl in *. rewrite Hstart. reflexivity. }
  clear Hstart. induction s as [|c s IH]; [reflexivity|].
  simpl. destruct s as [|c' s'].
  - simpl in *. rewrite Hend. reflexivity.
  - rewrite IH by exact Hend. reflexivity.
Qed.

Lemma starts_app (a b : string) :
  a <> "" -> starts_with_space (a ++ b) = starts_with_space a.
Proof. destruct a; [congruence | reflexivity]. Qed.

Lemma ends_app (a b : string) :
  b <> "" -> ends_with_space (a ++ b) = ends_with_space b.
Proof.
  intros Hb. induction a as [|c a IH]; [reflexivity|]. simpl.
  destruct (a ++ b) as [|c' r] eqn:Hab; [|exact IH].
  destruct a; simpl in Hab; [contradiction | discriminate].
Qed.

Lemma join_empty_sep (parts : list string) :
  Forall (fun p => str_nonempty p = true /\ tidy p) parts -> tidy (join "" parts).
Proof.
  assert (forall p, str_nonempty p = true -> p <> "") as Hne.
  { intros [|c p]; [discriminate | discriminate]. }
  induction 1 as [|p parts [Hp [Hstart Hend]] Hrest IH]; [split; reflexivity|].
  destruct parts as [|q parts]; [split; assumption|].
  change (join "" (p :: q :: parts)) with (p ++ "" ++ join "" (q :: parts)).
  change ("" ++ join "" (q :: parts)) with (join "" (q :: parts)).
  assert (join "" (q :: parts) <> "") as Hjoin.
  { apply Forall_cons in Hrest as [[Hq _] _].
    destruct q as [|c q]; [discriminate|].
    destruct parts; simpl; discriminate. }
  destruct IH as [_ IHend].
  split; [rewrite starts_app by auto; exact Hstart | rewrite ends_app by exact Hjoin; exact IHend].
Qed.

Lemma get_text_strip_tidy (n : node) : tidy (get_text_strip n).
Proof.
  unfold get_text_strip. apply join_empty_sep, Forall_forall. intros p Hp.
  apply list_elem_of_In, filter_In in Hp as [Hin Hne]. split; [exact Hne|].
  apply in_map_iff in Hin as (x & <- & _). apply strip_tidy.
Qed.

Section FetchTextExtras.
Context {P : Platform}.

(** X10: the title, every [h1] text and every cell of the table preview
    that [fetch_url] returns has no whitespace at its start or at its
    end. *)
Theorem fetch_url_texts_are_stripped (url : pyval) (take_table : bool)
    (st st' : state) (s : PageSummary) :
  fetch_url url take_table st = (Done s, st') ->
  tidy (title s)
  /\ Forall tidy (h1s s)
  /\ forall rows, table_preview s = Some rows -> Forall (Forall tidy) rows.
Proof.
  unfold fetch_url, bind, on_world.
  destruct (requests_get _ _ _ _) as [[resp|e] w]; simpl; [|discriminate].
  destruct (raise_for_status resp); simpl; [|discriminate].
  destruct (BeautifulSoup (resp_text resp)) as [soup|e]; simpl; [|discriminate].
  intros [= <- _]. cbn [title h1s table_preview].
  assert (forall l : list node, Forall tidy (List.map get_text_strip l)) as Htexts.
  { intros l. apply Forall_forall. intros x Hx.
    apply list_elem_of_In, in_map_iff in Hx as (n & <- & _). apply get_text_strip_tidy. }
  split; [|split].
  - destruct (find ["title"] _) as [t|]; [|split; reflexivity].
    destruct (tag_string t) as [text|]; [|split; reflexivity].
    destruct (str_nonempty text); [apply strip_tidy | split; reflexivity].
  - apply Htexts.
  - intros rows Hrows. destruct take_table; [|discriminate].
    destruct (find ["table"] _) as [table|]; [|discriminate].
    injection Hrows as <-. rewrite foldl_append_map. simpl app.
    apply Forall_forall. intros row Hrow.
    apply list_elem_of_In, in_map_iff in Hrow as (tr & <- & _). apply Htexts.
Qed.

End FetchTextExtras.

(** ** [analyze_csv]: counts, statistics and head *)

Section ProfileExtras.
Context {P : Platform}.

Lemma profile_from_returned (read : M DataFrame) (st st' : state) (p : DataProfile) :
  profile_from read st = (Done p, st') ->
  exists df st1 stats,
    read st = (Done df, st1) /\ pd_describe df = Ok stats
    /\ p = {| shape := df_shape df;
              columns := df_columns df;
              non_null_counts := df_count df;
              dtypes := df_dtypes_dict df;
              describe := to_dict (fillna (PStr "") stats);
              head_records := to_dict_records (df_head 5 df) |}.
Proof.
  unfold profile_from, bind. destruct (read st) as [[df|e|] st1]; try discriminate.
  destruct (pd_describe df) as [stats|e] eqn:Hstats; simpl; [|discriminate].
  intros [= <- _]. exists df, st1, stats. auto.
Qed.

(** A profile that was returned comes from a frame that parsed and a
    table of statistics, both well formed. *)
Lemma analyze_csv_returned (csv path : option string) (st st' : state) (p : DataProfile) :
  analyze_csv csv path st = (Done p, st') ->
  exists df stats,
    df_wf df /\ df_wf stats /\ df_columns stats = df_columns df
    /\ p = {| shape := df_shape df;
              columns := df_columns df;
              non_null_counts := df_count df;
              dtypes := df_dtypes_dict df;
              describe := to_dict (fillna (PStr "") stats);
              head_records := to_dict_records (df_head 5 df) |}.
Proof.
  rewrite analyze_csv_unfold. intros Hrun.
  apply profile_from_returned in Hrun as (df & st1 & stats & Hread & Hstats & ->).
  assert (exists text, pd_read_csv text = Ok df) as [text Hdf].
  { revert Hread. unfold pd_read_csv_path, bind, ask_world.
    destruct (given path); [|destruct (given csv)].
    - destruct (read_text _ _) as [text|e]; simpl; [|discriminate].
      destruct (pd_read_csv text) as [df'|e] eqn:Hdf; simpl; [|discriminate].
      intros [= <- _]. eauto.
    - destruct (pd_read_csv _) as [df'|e] eqn:Hdf; simpl; [|discriminate].
      intros [= <- _]. eauto.
    - discriminate. }
  pose proof (pd_read_csv_wf _ _ Hdf) as Hwf.
  destruct (pd_describe_wf _ _ Hwf Hstats) as [Hwf' Hcols].
  exists df, stats. auto.
Qed.

Lemma count_bounded (l : list (option pyval)) :
  (length (List.filter notnull l) <= length l)%nat.
Proof. induction l as [|c l IH]; simpl; [lia|]. destruct (notnull c); simpl; lia. Qed.

(** X11: in a profile [analyze_csv] returns, [non_null_counts] has one
    entry per column, in column order, each between 0 and the number of
    rows; [describe] has one entry per column, in column order, and all of
    them carry the same statistic labels. *)
Theorem profile_counts_and_statistics (csv path : option string) (st st' : state)
    (p : DataProfile) :
  analyze_csv csv path st = (Done p, st') ->
  List.map fst (non_null_counts p) = columns p
  /\ Forall (fun kv => 0 <= snd kv <= fst (shape p)) (non_null_counts p)
  /\ List.map fst (describe p) = columns p
  /\ (forall a b, In a (describe p) -> In b (describe p) -> stat_labels a = stat_labels b).
Proof.
  intros Hrun. destruct (analyze_csv_returned _ _ _ _ _ Hrun)
    as (df & stats & Hwf & Hwf' & Hcols & ->).
  cbn [shape columns non_null_counts describe fst].
  assert (forall {B} (f : nat -> string -> B) (l : list string),
             List.map fst (imap (fun j c => (c, f j c)) l) = l) as Hkeys.
  { intros B f l. revert f. induction l as [|c l IH]; intros f; [reflexivity|].
    simpl. f_equal. apply (IH (fun j => f (S j))). }
  split; [apply Hkeys|]. split; [|split].
  - unfold df_count. apply Forall_forall. intros [c n] Hin.
    apply list_elem_of_lookup in Hin as [j Hj]. rewrite list_lookup_imap in Hj.
    destruct (df_columns df !! j); [|discriminate]. injection Hj as _ <-. simpl.
    pose proof (count_bounded (df_column j df)) as Hle.
    unfold df_column in Hle at 2. rewrite length_map in Hle. lia.
  - unfold to_dict. cbn [fillna df_columns]. rewrite Hkeys. exact Hcols.
  - assert (forall a, In a (to_dict (fillna (PStr "") stats)) ->
                      stat_labels a = df_index stats) as Hlabels.
    { intros a Ha. rewrite (to_dict_fillna _ _ Hwf') in Ha.
      apply list_elem_of_In, list_elem_of_lookup in Ha as [j Hj].
      rewrite list_lookup_imap in Hj.
      destruct (df_columns stats !! j); [|discriminate]. injection Hj as <-.
      unfold stat_labels. cbn [snd]. apply (fst_zip (df_index stats)).
      rewrite length_map. destruct Hwf' as (_ & _ & -> & _). reflexivity. }
    intros a b Ha Hb. rewrite (Hlabels a Ha), (Hlabels b Hb). reflexivity.
Qed.

(** X12: [head] holds exactly min(5, [shape[0]]) records, each with
    [shape[1]] entries; both components of [shape] are non-negative. *)
Theorem profile_head_rows (csv path : option string) (st st' : state) (p : DataProfile) :
  analyze_csv csv path st = (Done p, st') ->
  length (head_records p) = Nat.min 5 (Z.to_nat (fst (shape p)))
  /\ Forall (fun record => Z.of_nat (length record) = snd (shape p)) (head_records p)
  /\ 0 <= fst (shape p) /\ 0 <= snd (shape p).
Proof.
  intros Hrun. destruct (analyze_csv_returned _ _ _ _ _ Hrun)
    as (df & stats & Hwf & _ & _ & ->).
  cbn [shape columns head_records df_shape fst snd].
  split; [|split; [|split; lia]].
  - unfold to_dict_records. cbn [df_head df_rows].
    rewrite length_map, length_take, Nat2Z.id. reflexivity.
  - pose proof (to_dict_records_keys df 5 Hwf) as Hkeys.
    apply Forall_forall. intros record Hin. rewrite Forall_forall in Hkeys.
    rewrite <- (Hkeys record Hin), length_map. reflexivity.
Qed.

End ProfileExtras.

(** ** [extract_text]: emptiness, concatenation, items without text *)

Lemma extract_text_found (resp : response) :
  extract_text resp
  = join nl (List.filter str_nonempty (flat_map texts_of_item (default [] (resp_output resp)))).
Proof.
  unfold extract_text. rewrite filter_truthy_texts, collect_items_texts. reflexivity.
Qed.

Lemma extract_text_response_of (items : list item) :
  extract_text (response_of items)
  = join nl (List.filter str_nonempty (flat_map texts_of_item items)).
Proof. apply (extract_text_found (response_of items)). Qed.

Lemma join_nonempty (sep : string) (parts : list string) :
  Forall (fun p => str_nonempty p = true) parts ->
  str_nonempty (join sep parts) = match parts with [] => false | _ => true end.
Proof.
  intros Hall. destruct Hall as [|p parts Hp _]; [reflexivity|].
  destruct p as [|c p]; [discriminate|]. destruct parts; reflexivity.
Qed.

Lemma string_app_assoc (a b c : string) : (a ++ b) ++ c = a ++ (b ++ c).
Proof.
  induction a as [|x a IH]; [reflexivity|].
  change (String x ((a ++ b) ++ c) = String x (a ++ (b ++ c))). f_equal. exact IH.
Qed.

Lemma join_app (sep : string) (l1 l2 : list string) :
  l1 <> [] -> l2 <> [] -> join sep (l1 ++ l2) = join sep l1 ++ sep ++ join sep l2.
Proof.
  intros H1 H2. induction l1 as [|p l1 IH]; [contradiction|].
  destruct l1 as [|q l1].
  - simpl. destruct l2; [contradiction | reflexivity].
  - change (join sep ((p :: q :: l1) ++ l2)) with (p ++ sep ++ join sep ((q :: l1) ++ l2)).
    rewrite IH by discriminate.
    change (join sep (p :: q :: l1)) with (p ++ sep ++ join sep (q :: l1)).
    rewrite !string_app_assoc. reflexivity.
Qed.

Lemma filter_all_nonempty (l : list string) :
  Forall (fun p => str_nonempty p = true) (List.filter str_nonempty l).
Proof.
  apply Forall_forall. intros p Hp. apply list_elem_of_In, filter_In in Hp. apply Hp.
Qed.

(** X13: [extract_text] returns the empty string exactly when every text
    found in the response is empty. *)
Theorem extract_text_empty_iff (resp : response) :
  extract_text resp = ""
  <-> Forall (fun t => t = "") (flat_map texts_of_item (default [] (resp_output resp))).
Proof.
  rewrite extract_text_found.
  generalize (flat_map texts_of_item (default [] (resp_output resp))). intros texts.
  pose proof (join_nonempty nl _ (filter_all_nonempty texts)) as Hjoin.
  split.
  - intros Hempty. rewrite Hempty in Hjoin. simpl in Hjoin.
    apply Forall_forall. intros t Ht.
    destruct t as [|c t]; [reflexivity|]. exfalso.
    assert (In (String c t) (List.filter str_nonempty texts)) as Hin.
    { apply filter_In. split; [apply list_elem_of_In, Ht | reflexivity]. }
    destruct (List.filter str_nonempty texts); [destruct Hin | discriminate Hjoin].
  - intros Hall. induction Hall as [|t ts -> _ IH]; [reflexivity|]. simpl. apply IH.
    exact (join_nonempty nl _ (filter_all_nonempty ts)).
Qed.

(** X14: the text of two runs of output items one after the other is the
    text of the first, a newline, and the text of the second; when one of
    the two is empty, it is the other one alone. *)
Theorem extract_text_of_concatenation (xs ys : list item) :
  extract_text (response_of (xs ++ ys))
  = glue (extract_text (response_of xs)) (extract_text (response_of ys)).
Proof.
  rewrite !extract_text_response_of, flat_map_app, List.filter_app. unfold glue.
  rewrite !(join_nonempty nl _ (filter_all_nonempty _)).
  destruct (List.filter str_nonempty (flat_map texts_of_item xs)) as [|a l1] eqn:H1;
    [reflexivity|].
  destruct (List.filter str_nonempty (flat_map texts_of_item ys)) as [|b l2] eqn:H2.
  - rewrite app_nil_r. reflexivity.
  - apply join_app; discriminate.
Qed.

(** X15: only message items and bare text items matter to [extract_text]:
    dropping every other item leaves the text unchanged; a tool-call item
    contributes nothing, and neither does a message without content. *)
Theorem extract_text_ignores_other_items (items : list item) :
  extract_text (response_of (List.filter carries_text items))
  = extract_text (response_of items)
  /\ (forall it, attr_is (item_type it) "tool_call" = true -> texts_of_item it = [])
  /\ (forall it, attr_is (item_type it) "message" = true ->
                 content_truthy (item_content it) = false -> texts_of_item it = []).
Proof.
  split; [|split].
  - rewrite !extract_text_response_of. f_equal. f_equal.
    induction items as [|it items IH]; [reflexivity|]. simpl.
    destruct (carries_text it) eqn:Hc; simpl; rewrite IH; [reflexivity|].
    unfold carries_text in Hc. apply Bool.orb_false_iff in Hc as [Hmsg Htext].
    unfold texts_of_item. rewrite Hmsg, Htext. reflexivity.
  - intros it Hcall. unfold texts_of_item, attr_is, attr_in, attr_is in *.
    destruct (getattr_str (item_type it)) as [| |s]; try discriminate.
    apply String.eqb_eq in Hcall. subst s. reflexivity.
  - intros it Hmsg Hcontent. unfold texts_of_item. rewrite Hmsg.
    destruct (item_content it) as [[|b bs]|]; [reflexivity | discriminate | reflexivity].
Qed.

(** ** The front ends *)

Section FrontEndExtras.
Context {P : Platform}.

(** X19: a run of [main] that ends has called [print] exactly once, with a
    text that is not blank (the text itself may span several lines): the
    usage message, with exit status 1 and no round-trip, when no prompt is
    given; otherwise, with exit status 0, the text extracted from the
    response the loop returned, or the placeholder when that text is
    blank. *)
Theorem main_prints_once (fuel : nat) (argv : list string) (st st' : state)
    (r : cli_result) :
  main fuel argv st = (Done r, st') ->
  exists text,
    printed r = [text]
    /\ strip text <> ""
    /\ (exit_status r = 1 <-> (length argv < 2)%nat)
    /\ ((length argv < 2)%nat -> text = usage /\ st' = st)
    /\ ((2 <= length argv)%nat ->
        exit_status r = 0
        /\ exists resp,
             run_with_tools fuel (join " " (drop 1 argv))
               (PDict [("type", PStr "web_search")] :: FUNCTION_SCHEMAS) st
             = (Done resp, st')
             /\ text = if str_nonempty (strip (extract_text resp))
                       then extract_text resp else no_final_text).
Proof.
  unfold main. destruct (Nat.ltb_spec (length argv) 2) as [Hshort|Hlong].
  - intros [= <- <-]. exists usage. split; [reflexivity|]. split; [vm_compute; discriminate|].
    split; [split; auto|]. split; [auto | lia].
  - unfold bind. destruct (run_with_tools _ _ _ st) as [[resp|e|] st1]; try discriminate.
    intros [= <- <-]. eexists. split; [reflexivity|]. cbn [exit_status].
    split; [|split; [split; [discriminate | lia] | split; [lia|]]].
    + destruct (strip (extract_text resp)) as [|c s] eqn:Hstrip; simpl.
      * vm_compute. discriminate.
      * rewrite Hstrip. discriminate.
    + intros _. split; [reflexivity|]. exists resp. split; reflexivity.
Qed.

Lemma tool_loop_only_submits (fuel : nat) (resp : response) (st : state) :
  exists new,
    st_trips (snd (tool_loop fuel resp st)) = (st_trips st ++ new)%list
    /\ Forall is_submit new.
Proof.
  revert resp st. induction fuel as [|fuel IH]; intros resp st.
  { exists []. simpl. rewrite app_nil_r. auto. }
  rewrite tool_loop_step.
  destruct (tool_calls_of resp) as [|c cs] eqn:Hcalls.
  { exists []. simpl. rewrite app_nil_r. auto. }
  destruct (run_calls_ids (c :: cs) [] st) as (outs & st1 & -> & _ & Htrips).
  destruct outs as [|o outs].
  { exists []. simpl. rewrite app_nil_r. auto. }
  unfold client_submit_tool_outputs, bind, log_trip, on_world. simpl.
  destruct (responses_submit_tool_outputs _ _ _) as [[resp'|e] w]; simpl.
  - destruct (IH resp' {| st_world := w;
                          st_trips := (st_trips st1 ++ [TripSubmit resp (o :: outs)])%list |})
      as (new & -> & Hnew).
    exists (TripSubmit resp (o :: outs) :: new). simpl.
    rewrite Htrips, <- app_assoc. split; [reflexivity|]. constructor; [exact I | exact Hnew].
  - exists [TripSubmit resp (o :: outs)]. rewrite Htrips. split; [reflexivity|].
    repeat constructor.
Qed.

(** Each run of the loop opens with its prompt and then only submits. *)
Lemma run_with_tools_first_trip (fuel : nat) (prompt : string) (tools : list pyval)
    (st : state) :
  exists new,
    st_trips (snd (run_with_tools fuel prompt tools st))
    = (st_trips st ++ TripCreate prompt :: new)%list
    /\ Forall is_submit new.
Proof.
  unfold run_with_tools, client_responses_create, bind, log_trip, on_world. simpl.
  destruct (responses_create _ _ _ _) as [[resp|e] w]; simpl.
  - destruct (tool_loop_only_submits fuel resp
                {| st_world := w; st_trips := (st_trips st ++ [TripCreate prompt])%list |})
      as (new & -> & Hnew).
    exists new. simpl. rewrite <- app_assoc. auto.
  - exists []. auto.
Qed.

(** [run_endpoint] once the prompt has been read and stripped. *)
Lemma run_endpoint_with_prompt (fuel : nat) (request : flask_request) (st : state)
    (got : pyval) (prompt : string) :
  method_get (py_or (default PNone (request_json request)) (PDict [])) "prompt" st
  = (Done got, st) ->
  method_strip (py_or got (PStr "")) st = (Done prompt, st) ->
  run_endpoint fuel request st
  = if str_nonempty prompt then
      match run_with_tools fuel prompt
              (PDict [("type", PStr "web_search")] :: FUNCTION_SCHEMAS) st with
      | (Done resp, st') =>
          (Done (jsonify (PDict [("ok", PBool true); ("text", PStr (extract_text resp))]) 200),
           st')
      | (Raised e, st') =>
          (Done (jsonify (PDict [("ok", PBool false); ("error", PStr (str_exn e))]) 500), st')
      | (OutOfFuel, st') => (OutOfFuel, st')
      end
    else (Done (jsonify (PDict [("ok", PBool false); ("error", PStr "Missing prompt")]) 400),
          st).
Proof.
  intros Hget Hstrip. unfold run_endpoint. cbv zeta.
  unfold bind at 1. rewrite Hget. unfold bind at 1. rewrite Hstrip.
  destruct (str_nonempty prompt); cbn [negb]; [|reflexivity].
  unfold try_except, bind.
  destruct (run_with_tools fuel prompt _ st) as [[resp|e|] st']; reflexivity.
Qed.

(** Reading a string prompt out of an object. *)
Lemma string_prompt_is_read (d : list (string * pyval)) (s : string) (st : state) :
  dict_get "prompt" d = Some (PStr s) ->
  method_get (py_or (default PNone (request_json {| request_json := Some (PDict d) |}))
                    (PDict [])) "prompt" st
  = (Done (PStr s), st)
  /\ method_strip (py_or (PStr s) (PStr "")) st = (Done (strip s), st).
Proof.
  intros Hprompt. cbn [request_json default from_option id]. split.
  - assert (py_or (PDict d) (PDict []) = PDict d) as ->.
    { destruct d; [discriminate Hprompt | reflexivity]. }
    unfold method_get. rewrite Hprompt. reflexivity.
  - destruct s; reflexivity.
Qed.

(** X16: on a body whose [prompt] is a string, [run_endpoint] answers 400
    "Missing prompt" without touching the state when the stripped prompt
    is empty; otherwise it runs the loop on the stripped prompt and answers
    200 with the extracted text when the loop returns, 500 with [str(e)]
    when the loop raises [e]. *)
Theorem run_endpoint_on_string_prompt (fuel : nat) (d : list (string * pyval))
    (s : string) (st : state) :
  dict_get "prompt" d = Some (PStr s) ->
  run_endpoint fuel {| request_json := Some (PDict d) |} st
  = if str_nonempty (strip s) then
      match run_with_tools fuel (strip s)
              (PDict [("type", PStr "web_search")] :: FUNCTION_SCHEMAS) st with
      | (Done resp, st') =>
          (Done (jsonify (PDict [("ok", PBool true); ("text", PStr (extract_text resp))]) 200),
           st')
      | (Raised e, st') =>
          (Done (jsonify (PDict [("ok", PBool false); ("error", PStr (str_exn e))]) 500), st')
      | (OutOfFuel, st') => (OutOfFuel, st')
      end
    else (Done (jsonify (PDict [("ok", PBool false); ("error", PStr "Missing prompt")]) 400),
          st).
Proof.
  intros Hprompt. destruct (string_prompt_is_read d s st Hprompt) as [Hget Hstrip].
  apply (run_endpoint_with_prompt fuel _ st (PStr s) (strip s) Hget Hstrip).
Qed.

(** X17: whatever the request, [run_endpoint] opens at most one
    conversation: the round-trips it issues are none at all, or one first
    call followed by submissions only. The prompt of that call is not
    empty and has no whitespace at its start or at its end. *)
Theorem run_endpoint_opens_one_conversation (fuel : nat) (request : flask_request)
    (st : state) :
  exists new,
    st_trips (snd (run_endpoint fuel request st)) = (st_trips st ++ new)%list
    /\ (new = []
        \/ exists p rest,
             new = TripCreate p :: rest /\ p <> "" /\ tidy p /\ Forall is_submit rest).
Proof.
  assert (exists new : list round_trip,
             st_trips st = (st_trips st ++ new)%list
             /\ (new = []
                 \/ exists p rest,
                      new = TripCreate p :: rest /\ p <> "" /\ tidy p
                      /\ Forall is_submit rest)) as Hnone.
  { exists []. rewrite app_nil_r. split; [reflexivity | left; reflexivity]. }
  unfold run_endpoint. cbv zeta. unfold bind at 1.
  destruct (method_get _ "prompt" st) as [[got|e|] st1] eqn:Hget.
  2,3: unfold method_get in Hget;
       destruct (py_or _ _); try discriminate Hget; injection Hget as _ <-; exact Hnone.
  assert (st1 = st) as ->.
  { unfold method_get in Hget. destruct (py_or _ (PDict [])); try discriminate Hget.
    injection Hget as _ <-. reflexivity. }
  unfold bind at 1.
  destruct (method_strip (py_or got (PStr "")) st) as [[prompt|e|] st1] eqn:Hstrip.
  2,3: unfold method_strip in Hstrip;
       destruct (py_or got _); try discriminate Hstrip; injection Hstrip as _ <-; exact Hnone.
  assert (st1 = st /\ exists s, prompt = strip s) as [-> [s ->]].
  { unfold method_strip in Hstrip. destruct (py_or got _); try discriminate Hstrip.
    injection Hstrip as <- <-. eauto. }
  destruct (str_nonempty (strip s)) eqn:Hne; cbn [negb]; [|exact Hnone].
  unfold try_except, bind.
  destruct (run_with_tools_first_trip fuel (strip s)
              (PDict [("type", PStr "web_search")] :: FUNCTION_SCHEMAS) st)
    as (new & Htrips & Hsubmits).
  destruct (run_with_tools fuel (strip s) _ st) as [[resp|e|] st1]; simpl in *;
    (exists (TripCreate (strip s) :: new); split; [exact Htrips|];
     right; exists (strip s), new; split; [reflexivity|];
     split; [destruct (strip s); discriminate|];
     split; [apply strip_tidy | exact Hsubmits]).
Qed.

(** X20: the two front ends run the same loop. For a prompt without
    surrounding whitespace given as command-line words and as the [prompt]
    of a request, both end in the same state; [run_endpoint] answers 200
    with the text [main] prints (the placeholder standing in for a blank
    text), and answers 500 with [str(e)] where [main] dies of [e]. Both
    are run on one platform: the same libraries, the same endpoint, and
    the tools held in a module of the same name. *)
Theorem front_ends_agree (fuel : nat) (prog : string) (args : list string)
    (d : list (string * pyval)) (st : state) :
  args <> [] ->
  tidy (join " " args) ->
  join " " args <> "" ->
  dict_get "prompt" d = Some (PStr (join " " args)) ->
  match main fuel (prog :: args) st,
        run_endpoint fuel {| request_json := Some (PDict d) |} st with
  | (Done r, s1), (Done reply, s2) =>
      s1 = s2 /\ exit_status r = 0 /\ reply_status reply = 200
      /\ exists text,
           reply_json reply = PDict [("ok", PBool true); ("text", PStr text)]
           /\ printed r = [if str_nonempty (strip text) then text else no_final_text]
  | (Raised e, s1), (Done reply, s2) =>
      s1 = s2 /\ reply_status reply = 500
      /\ reply_json reply = PDict [("ok", PBool false); ("error", PStr (str_exn e))]
  | (OutOfFuel, s1), (OutOfFuel, s2) => s1 = s2
  | _, _ => False
  end.
Proof.
  intros Hargs Htidy Hne Hprompt.
  destruct (string_prompt_is_read d _ st Hprompt) as [Hget Hstrip].
  rewrite (run_endpoint_with_prompt fuel _ st _ _ Hget Hstrip), (tidy_fixed _ Htidy).
  assert (str_nonempty (join " " args) = true) as ->.
  { destruct (join " " args); [contradiction | reflexivity]. }
  unfold main.
  assert ((length (prog :: args) <? 2)%nat = false) as ->.
  { destruct args; [contradiction | reflexivity]. }
  cbv zeta. change (drop 1 (prog :: args)) with args. unfold bind.
  destruct (run_with_tools fuel (join " " args) _ st) as [[resp|e|] st']; cbn [ret].
  - split; [reflexivity|]. split; [reflexivity|]. split; [reflexivity|].
    eexists. split; reflexivity.
  - auto.
  - reflexivity.
Qed.

End FrontEndExtras.

Section FlaskRaises.
Context {P : Platform}.

Lemma method_strip_refuses (v : pyval) (st : state) :
  ~ prompt_ok v ->
  exists e, method_strip (py_or v (PStr "")) st = (Raised e, st)
            /\ exc_class e = "AttributeError".
Proof.
  intros Hbad. unfold py_or.
  destruct (truthy v) eqn:Htruthy; [|exfalso; apply Hbad; left; exact Htruthy].
  destruct v; simpl; eauto. exfalso. apply Hbad. right. eauto.
Qed.

(** X18: [run_endpoint] raises exactly on the bodies it cannot read: a
    truthy body that is not an object, or an object whose [prompt] is
    truthy and not a string. The exception is then an [AttributeError],
    raised before any round-trip: the state is left as it was. *)
Theorem run_endpoint_raises_iff_unreadable (fuel : nat) (request : flask_request)
    (st : state) :
  ((exists e st', run_endpoint fuel request st = (Raised e, st')) <-> ~ body_ok request)
  /\ (forall e st',
        run_endpoint fuel request st = (Raised e, st') ->
        exc_class e = "AttributeError" /\ st' = st).
Proof.
  assert (~ body_ok request ->
          exists e, run_endpoint fuel request st = (Raised e, st)
                    /\ exc_class e = "AttributeError") as Hraises.
  { unfold body_ok, run_endpoint. cbv zeta.
    destruct (request_json request) as [v|]; [|intros Hbad; exfalso; apply Hbad; exact I].
    intros Hbad. cbn [default from_option id].
    assert (truthy v = true) as Htruthy.
    { destruct (truthy v) eqn:Hv; [reflexivity|]. exfalso. apply Hbad. left. reflexivity. }
    unfold py_or at 1. rewrite Htruthy.
    destruct v; try (eexists; split; reflexivity).
    assert (~ prompt_ok (default PNone (dict_get "prompt" entries))) as Hprompt.
    { intros Hok. apply Hbad. right. eauto. }
    destruct (method_strip_refuses _ st Hprompt) as (e & He & Hclass).
    exists e. split; [|exact Hclass].
    unfold bind at 1, method_get. cbn [ret]. unfold bind at 1. rewrite He. reflexivity. }
  assert (body_ok request -> forall e st', run_endpoint fuel request st <> (Raised e, st'))
    as Hreplies.
  { intros Hok e st' Hrun. pose proof (run_endpoint_replies_json fuel request st Hok) as H.
    rewrite Hrun in H. exact H. }
  split; [split|].
  - intros (e & st' & Hrun) Hok. exact (Hreplies Hok e st' Hrun).
  - intros Hbad. destruct (Hraises Hbad) as (e & Hrun & _). eauto.
  - intros e st' Hrun.
    assert (~ body_ok request) as Hbad.
    { intros Hok. exact (Hreplies Hok e st' Hrun). }
    destruct (Hraises Hbad) as (e' & Hrun' & Hclass). rewrite Hrun in Hrun'.
    injection Hrun' as -> ->. auto.
Qed.

End FlaskRaises.

(** ** The further properties on the scripted platform *)

Lemma shop_fetch :
  fetch_url (PStr "http://shop.test/") true (Demo.start [])
  = (Done shop_summary, Demo.start []).
Proof. reflexivity. Qed.

Lemma inline_analysis :
  analyze_csv (Some Demo.inline_csv) None (Demo.start [])
  = (Done inline_profile, Demo.start []).
Proof. reflexivity. Qed.

Lemma mixed_run :
  run_with_tools 5 "hi" Demo.tools_config (Demo.start mixed_script)
  = (Done Demo.final_reply,
     {| st_world := {| Demo.script := [] |}; st_trips := mixed_trips |}).
Proof. reflexivity. Qed.

Lemma endpoint_failures_leave_the_loop_witness :
  run_with_tools 3 "hi" Demo.tools_config (Demo.start [])
  = (Raised (Exn "APIConnectionError" "Connection error."),
     {| st_world := {| Demo.script := [] |}; st_trips := [TripCreate "hi"] |}).
Proof.
  destruct (endpoint_failures_leave_the_loop 3 "hi" Demo.tools_config (Demo.start [])
              (Exn "APIConnectionError" "Connection error.") {| Demo.script := [] |})
    as [Hcreate _].
  exact (Hcreate eq_refl).
Defined.

Lemma returned_response_has_no_registered_call_witness :
  List.filter registered (tool_calls_of Demo.final_reply) = [].
Proof.
  exact (returned_response_has_no_registered_call 5 "hi" Demo.tools_config
           (Demo.start mixed_script) _ Demo.final_reply mixed_run).
Defined.

(** Three iterations against the endpoint that never stops asking. *)
Lemma loop_has_no_round_limit_witness :
  exists st' new,
    @tool_loop Demo.insistent 3 Demo.mixed_round Demo.insistent_start = (OutOfFuel, st')
    /\ st_trips st' = new
    /\ length new = 3%nat
    /\ Forall is_submit new.
Proof.
  assert (forall r, r = Demo.mixed_round ->
                    List.filter (@registered Demo.insistent) (tool_calls_of r) <> []) as Hasks.
  { intros r ->. change (tool_calls_of Demo.mixed_round)
      with [Demo.tool_call "a" "analyze_csv" PNone; Demo.tool_call "b" "web_search" PNone].
    assert (@registered Demo.insistent (Demo.tool_call "a" "analyze_csv" PNone) = true) as Ha.
    { unfold registered. cbn [call_name Demo.tool_call]. rewrite CUSTOM_TOOLS_lookup.
      reflexivity. }
    cbn [List.filter]. rewrite Ha. discriminate. }
  assert (forall (r : response) (batch : list tool_output) (w : @world Demo.insistent),
             r = Demo.mixed_round ->
             exists r' w',
               @responses_submit_tool_outputs Demo.insistent (resp_id r) batch w = (Ok r', w')
               /\ r' = Demo.mixed_round) as Hanswers.
  { intros r batch w _. exists Demo.mixed_round, w. split; reflexivity. }
  exact (@loop_has_no_round_limit Demo.insistent (fun r => r = Demo.mixed_round) 3
           Demo.mixed_round Demo.insistent_start Hasks Hanswers eq_refl).
Defined.

Lemma shop_call_runs :
  fetch_url_kwargs (py_or (call_arguments shop_call) (PDict [])) (Demo.start [])
  = (Done (summary_dict shop_summary), Demo.start []).
Proof. reflexivity. Qed.

Lemma tool_result_becomes_output_witness :
  exists text,
    json_dumps (summary_dict shop_summary) = Ok text
    /\ run_call [] shop_call (Demo.start [])
       = (Done [{| tool_call_id := "a"; output := text |}], Demo.start []).
Proof.
  destruct (summary_dict_serializable shop_summary) as [text Htext].
  exists text. split; [exact Htext|].
  rewrite (tool_result_becomes_output shop_call fetch_url_kwargs [] _ _ _
             registry_fetch_url shop_call_runs), Htext.
  reflexivity.
Defined.

Lemma schemas_and_registry_agree_witness :
  is_Some (declared_properties "analyze_csv").
Proof.
  apply (schemas_and_registry_agree "analyze_csv").
  rewrite registry_analyze_csv. eexists. reflexivity.
Defined.

Lemma undeclared_argument_is_refused_witness :
  exists e,
    exc_class e = "TypeError"
    /\ run_call [] verbose_call (Demo.start [])
       = (Done [{| tool_call_id := "v"; output := error_output e |}], Demo.start []).
Proof.
  refine (undeclared_argument_is_refused verbose_call ["csv"; "path"]
            [("csv", PStr "a,b"); ("verbose", PBool true)] "verbose" (PBool true)
            [] (Demo.start []) _ _ _ _).
  - reflexivity.
  - reflexivity.
  - right. left. reflexivity.
  - intros [H|[H|[]]]; discriminate H.
Defined.

Lemma fetched_page_becomes_json_output_witness :
  exists text,
    run_call [] shop_call (Demo.start [])
    = (Done [{| tool_call_id := "a"; output := text |}], Demo.start []).
Proof.
  assert (Forall (fun kv : string * pyval => In (fst kv) ["url"; "take_table"])
                 [("url", PStr "http://shop.test/")]) as Hkeys.
  { repeat (constructor; [simpl; tauto|]). constructor. }
  destruct (fetched_page_becomes_json_output shop_call _ (PStr "http://shop.test/") []
              (Demo.start []) _ _ eq_refl eq_refl Hkeys eq_refl shop_fetch)
    as (text & _ & Hcall).
  exists text. exact Hcall.
Defined.

(** A page that is gone, and a page the parser rejects. *)
Lemma failed_fetch_becomes_error_output_witness :
  run_call [] gone_call (Demo.start [])
  = (Done [{| tool_call_id := "g";
              output := error_output
                (Exn "HTTPError" "404 Client Error: Not Found for url: http://shop.test/gone") |}],
     Demo.start [])
  /\ run_call [] broken_call (Demo.start [])
     = (Done [{| tool_call_id := "x";
                 output := error_output
                   (Exn "ParserRejectedMarkup"
                        "AssertionError: unknown status keyword 'spam' in marked section") |}],
        Demo.start []).
Proof.
  split.
  - assert (Forall (fun kv : string * pyval => In (fst kv) ["url"; "take_table"])
                   [("url", PStr "http://shop.test/gone"); ("take_table", PBool false)])
      as Hkeys.
    { repeat (constructor; [simpl; tauto|]). constructor. }
    refine (failed_fetch_becomes_error_output gone_call _ (PStr "http://shop.test/gone") []
              (Demo.start []) _ {| Demo.script := [] |} _
              eq_refl eq_refl Hkeys eq_refl eq_refl _).
    right. left. eexists. split; reflexivity.
  - assert (Forall (fun kv : string * pyval => In (fst kv) ["url"; "take_table"])
                   [("url", PStr "http://shop.test/broken")]) as Hkeys.
    { repeat (constructor; [simpl; tauto|]). constructor. }
    refine (failed_fetch_becomes_error_output broken_call _ (PStr "http://shop.test/broken") []
              (Demo.start []) _ {| Demo.script := [] |} _
              eq_refl eq_refl Hkeys eq_refl eq_refl _).
    right. right. eexists. split; [reflexivity|]. split; reflexivity.
Defined.

Lemma non_mapping_arguments_are_refused_witness :
  run_call [] text_call (Demo.start [])
  = (Done [{| tool_call_id := "t";
              output := error_output
                (Exn "TypeError"
                     "agent.fetch_url() argument after ** must be a mapping, not str") |}],
     Demo.start []).
Proof.
  assert (registered text_call = true) as Hreg.
  { unfold registered. cbn [call_name text_call Demo.tool_call].
    rewrite registry_fetch_url. reflexivity. }
  assert (forall kw, call_arguments text_call <> PDict kw) as Hother.
  { intros kw. discriminate. }
  exact (non_mapping_arguments_are_refused text_call [] (Demo.start []) Hreg eq_refl Hother).
Defined.

Lemma call_without_arguments_witness :
  run_call [] (Demo.tool_call "n" "fetch_url" (PDict [])) (Demo.start [])
  = (Done [{| tool_call_id := "n";
              output := error_output
                (Exn "TypeError"
                     "fetch_url() missing 1 required positional argument: 'url'") |}],
     Demo.start []).
Proof.
  destruct (call_without_arguments (Demo.tool_call "n" "fetch_url" (PDict [])) []
              (Demo.start []) eq_refl) as [_ Hfetch].
  exact (Hfetch eq_refl).
Defined.

Lemma fetch_url_texts_are_stripped_witness :
  tidy (title shop_summary) /\ Forall tidy (h1s shop_summary).
Proof.
  destruct (fetch_url_texts_are_stripped (PStr "http://shop.test/") true (Demo.start []) _ _
              shop_fetch)
    as (Htitle & Hh1s & _).
  split; [exact Htitle | exact Hh1s].
Defined.

Lemma profile_counts_and_statistics_witness :
  List.map fst (non_null_counts inline_profile) = columns inline_profile
  /\ List.map fst (describe inline_profile) = columns inline_profile.
Proof.
  destruct (profile_counts_and_statistics (Some Demo.inline_csv) None (Demo.start []) _ _
              inline_analysis) as (Hcounts & _ & Hdescribe & _).
  split; [exact Hcounts | exact Hdescribe].
Defined.

Lemma profile_head_rows_witness :
  length (head_records inline_profile) = Nat.min 5 (Z.to_nat (fst (shape inline_profile))).
Proof.
  destruct (profile_head_rows (Some Demo.inline_csv) None (Demo.start []) _ _ inline_analysis)
    as (Hhead & _).
  exact Hhead.
Defined.

Lemma extract_text_empty_iff_witness : extract_text (response_of blank_items) = "".
Proof.
  apply (extract_text_empty_iff (response_of blank_items)). repeat constructor.
Defined.

Lemma extract_text_ignores_other_items_witness :
  texts_of_item (Demo.tool_call "a" "fetch_url" PNone) = [].
Proof.
  destruct (extract_text_ignores_other_items []) as (_ & Hcall & _).
  apply Hcall. reflexivity.
Defined.

Lemma run_endpoint_on_string_prompt_witness :
  run_endpoint 5 {| request_json := Some (PDict [("prompt", PStr "   ")]) |} (Demo.start [])
  = (Done (jsonify (PDict [("ok", PBool false); ("error", PStr "Missing prompt")]) 400),
     Demo.start []).
Proof.
  exact (run_endpoint_on_string_prompt 5 [("prompt", PStr "   ")] "   " (Demo.start [])
           eq_refl).
Defined.

Lemma two_line_run :
  main 5 ["agent.py"; "count"] (Demo.start [Ok Demo.two_line_reply])
  = (Done {| printed := ["one" ++ nl ++ "two"]; exit_status := 0 |},
     {| st_world := {| Demo.script := [] |}; st_trips := [TripCreate "count"] |}).
Proof. reflexivity. Qed.

(** One [print] call whose text has two lines. *)
Lemma main_prints_once_witness :
  exists text,
    printed {| printed := ["one" ++ nl ++ "two"]; exit_status := 0 |} = [text]
    /\ strip text <> ""
    /\ text = "one" ++ nl ++ "two".
Proof.
  destruct (main_prints_once 5 ["agent.py"; "count"] (Demo.start [Ok Demo.two_line_reply]) _ _
              two_line_run) as (text & Hprinted & Hstrip & _).
  exists text. split; [exact Hprinted|]. split; [exact Hstrip|].
  injection Hprinted as <-. reflexivity.
Defined.

Lemma hi_prompt_tidy : tidy (join " " ["say"; "hi"]).
Proof. split; reflexivity. Qed.

Lemma front_ends_agree_witness :
  match main 5 ["agent.py"; "say"; "hi"] (Demo.start [Ok Demo.final_reply]),
        run_endpoint 5 {| request_json := Some (PDict [("prompt", PStr "say hi")]) |}
          (Demo.start [Ok Demo.final_reply]) with
  | (Done r, s1), (Done reply, s2) =>
      s1 = s2 /\ exit_status r = 0 /\ reply_status reply = 200
      /\ exists text,
           reply_json reply = PDict [("ok", PBool true); ("text", PStr text)]
           /\ printed r = [if str_nonempty (strip text) then text else no_final_text]
  | (Raised e, s1), (Done reply, s2) =>
      s1 = s2 /\ reply_status reply = 500
      /\ reply_json reply = PDict [("ok", PBool false); ("error", PStr (str_exn e))]
  | (OutOfFuel, s1), (OutOfFuel, s2) => s1 = s2
  | _, _ => False
  end.
Proof.
  assert (["say"; "hi"] <> []) as Hargs by discriminate.
  assert (join " " ["say"; "hi"] <> "") as Hne by discriminate.
  exact (front_ends_agree 5 "agent.py" ["say"; "hi"] [("prompt", PStr "say hi")]
           (Demo.start [Ok Demo.final_reply]) Hargs hi_prompt_tidy Hne eq_refl).
Defined.

Lemma run_endpoint_raises_iff_unreadable_witness :
  exists e st',
    run_endpoint 5 {| request_json := Some (PDict [("prompt", PBool true)]) |} (Demo.start [])
    = (Raised e, st').
Proof.
  apply (run_endpoint_raises_iff_unreadable 5
           {| request_json := Some (PDict [("prompt", PBool true)]) |} (Demo.start [])).
  unfold body_ok. cbn [request_json]. intros [Hfalsy|(d & Hd & [Hfalsy|[s Hs]])].
  - discriminate Hfalsy.
  - injection Hd as <-. discriminate Hfalsy.
  - injection Hd as <-. discriminate Hs.
Defined.
